(** * Interview orchestration graph (graph.py): a shallow embedding

    The Python module [graph.py] drives a mock interview as a LangGraph
    state graph: nodes are functions from the shared [InterviewState]
    dictionary to a partial dictionary (the update), and a [controller]
    function picks the next node.  This development embeds the nodes of
    the interview loop as Rocq functions and states the properties of the
    scoring rubric, the question selector, the difficulty and follow-up
    policies, the progress tracker, the report and the graph itself.

    Conventions of the embedding.
    - A Python [float] is an IEEE 754 binary64 value: the [spec_float] of
      the Standard Library at precision 53 and maximal exponent 1024, with
      its operations [SFadd], [SFmul], [SFdiv] and [SFcompare].  Decimal
      literals of the source are read through the kernel's float literals.
    - A Python [int] is a [Z].
    - A Python [str] is a [string] whose characters are the code points
      0..255 (the Latin-1 block of Unicode); [lower] and [split] follow
      Python's tables on that block.
    - The state is a [TypedDict] with [total=False]: every key may be
      absent.  A key is an [option]; [state[k]] on an absent key raises
      [KeyError], [state.get(k, d)] yields [d].
    - [time.time()] is an input of the node that calls it. *)

From Stdlib Require Import ZArith Lia List Bool String Ascii Floats DecimalString.
From Stdlib Require QArith Qabs.
Import ListNotations.

Set Warnings "-inexact-float".
Local Open Scope string_scope.
Local Open Scope list_scope.
Local Open Scope Z_scope.

(** ** Python strings *)

Module PyStr.

Local Open Scope string_scope.

(** [c.lower()] on the code points below 256: A-Z, and the Latin-1
    capitals U+00C0..U+00DE except the multiplication sign U+00D7. *)
Definition lower_char (c : ascii) : ascii :=
  let n := nat_of_ascii c in
  if ((65 <=? n) && (n <=? 90))%nat then ascii_of_nat (n + 32)
  else if ((192 <=? n) && (n <=? 222) && negb (n =? 215))%nat
       then ascii_of_nat (n + 32)
       else c.

Fixpoint lower (s : string) : string :=
  match s with
  | EmptyString => EmptyString
  | String c s' => String (lower_char c) (lower s')
  end.

(** [str.isspace] on one character: U+0009..U+000D, U+001C..U+0020,
    U+0085 and U+00A0. *)
Definition is_space (c : ascii) : bool :=
  let n := nat_of_ascii c in
  (((9 <=? n) && (n <=? 13)) || ((28 <=? n) && (n <=? 32))
   || (n =? 133) || (n =? 160))%nat.

Fixpoint starts_with (p s : string) : bool :=
  match p, s with
  | EmptyString, _ => true
  | String _ _, EmptyString => false
  | String a p', String b s' => Ascii.eqb a b && starts_with p' s'
  end.

(** [needle in hay]. *)
Fixpoint contains (needle hay : string) : bool :=
  starts_with needle hay
  || match hay with
     | EmptyString => false
     | String _ hay' => contains needle hay'
     end.

(** [len(s.split())]: the number of maximal runs of non-space
    characters.  [inword] tells whether the previous character was part
    of a word. *)
Fixpoint count_words (inword : bool) (s : string) : Z :=
  match s with
  | EmptyString => 0
  | String c s' =>
      if is_space c then count_words false s'
      else (if inword then 0 else 1) + count_words true s'
  end.

Definition word_count (s : string) : Z := count_words false s.

(** [s[:n]]. *)
Definition take (n : nat) (s : string) : string := substring 0 n s.

(** [any(w in s for w in ws)]. *)
Definition any_in (ws : list string) (s : string) : bool :=
  existsb (fun w => contains w s) ws.

End PyStr.

(** ** Python floats: IEEE 754 binary64 *)

Module F64.

Definition float := spec_float.

Definition prec : Z := 53.
Definition emax : Z := 1024.

Definition add : float -> float -> float := SFadd prec emax.
Definition sub : float -> float -> float := SFsub prec emax.
Definition mul : float -> float -> float := SFmul prec emax.
Definition div : float -> float -> float := SFdiv prec emax.

(** [x < y], [x <= y], [x >= y] of two floats; all are false on NaN. *)
Definition ltb : float -> float -> bool := SFltb.
Definition leb : float -> float -> bool := SFleb.
Definition geb (x y : float) : bool := SFleb y x.

(** A float literal of the source. *)
Definition lit (x : PrimFloat.float) : float := Prim2SF x.

(** An integer as the numerator or denominator of a correctly rounded
    quotient: mantissa [z], exponent 0. *)
Definition raw_int (z : Z) : float :=
  match z with
  | Z0 => S754_zero false
  | Zpos p => S754_finite false p 0
  | Zneg p => S754_finite true p 0
  end.

(** [float(z)]: the binary64 value nearest to [z], ties to even. *)
Definition of_int (z : Z) : float := binary_normalize prec emax z 0 false.

(** [a / b] of two Python ints ([long_true_divide]): the binary64 value
    nearest to the exact quotient.  The source only divides by non-zero
    constants and by the length of a non-empty list. *)
Definition int_true_div (a b : Z) : float := div (raw_int a) (raw_int b).

(** [min(x, y)] of two floats: [y] when [y < x], else [x]. *)
Definition min (x y : float) : float := if ltb y x then y else x.

(** [sum(xs)] over floats, left to right from the int [0] (CPython up to
    3.11; from 3.12 on [sum] also carries a compensation term, which can
    change the last bit of a sum of three or more floats). *)
Definition sum (xs : list float) : float :=
  fold_left add xs (of_int 0).

(** Exact comparison of a float with an int, as [float_richcompare]
    does: [None] on NaN. *)
Definition compare_int (x : float) (z : Z) : option comparison :=
  match x with
  | S754_nan => None
  | S754_infinity s => Some (if s then Lt else Gt)
  | S754_zero _ => Some (0 ?= z)
  | S754_finite s m e =>
      let v := if s then Zneg m else Zpos m in
      Some (if 0 <=? e then (v * 2 ^ e ?= z) else (v ?= z * 2 ^ (- e)))
  end.

(** [x >= z] and [z > x] for a float [x] and an int [z]. *)
Definition geb_int (x : float) (z : Z) : bool :=
  match compare_int x z with Some (Gt | Eq) => true | _ => false end.

Definition int_gtb (z : Z) (x : float) : bool :=
  match compare_int x z with Some Lt => true | _ => false end.

(** [x > z] for a float [x] and an int [z]. *)
Definition gtb_int (x : float) (z : Z) : bool :=
  match compare_int x z with Some Gt => true | _ => false end.

(** *** Decimal rounding

    [round(x, nd)] and the format [f"{x:.<nd>f}"] both round the exact
    value of [x] to [nd] decimals, ties to even ([_Py_dg_dtoa], mode 3). *)

(** The integer nearest to [a / b] for [0 <= a], [0 < b], ties to even. *)
Definition div_half_even (a b : Z) : Z :=
  let q := a / b in
  let r := a mod b in
  match 2 * r ?= b with
  | Lt => q
  | Gt => q + 1
  | Eq => if Z.even q then q else q + 1
  end.

(** [|x| * 10^nd] rounded to an integer, for a finite non-zero [x] of
    mantissa [m] and exponent [e]. *)
Definition scaled (m : positive) (e : Z) (nd : Z) : Z :=
  if 0 <=? e then Zpos m * 2 ^ e * 10 ^ nd
  else div_half_even (Zpos m * 10 ^ nd) (2 ^ (- e)).

(** [round(x, nd)] for [0 <= nd]: the decimal is read back as the
    nearest float ([_Py_dg_strtod]). *)
Definition round (x : float) (nd : Z) : float :=
  match x with
  | S754_finite s m e =>
      let n := scaled m e nd in
      if n =? 0 then S754_zero s
      else int_true_div (if s then - n else n) (10 ^ nd)
  | _ => x
  end.

Definition digits (z : Z) : string :=
  DecimalString.NilZero.string_of_uint (N.to_uint (Z.to_N z)).

Fixpoint zeros (k : nat) : string :=
  match k with
  | O => EmptyString
  | S k' => String "0" (zeros k')
  end.

(** The decimal of [n / 10^nd] with exactly [nd] digits after the point. *)
Definition fixed_digits (n : Z) (nd : Z) : string :=
  if nd =? 0 then digits n
  else
    let frac := digits (n mod 10 ^ nd) in
    (digits (n / 10 ^ nd) ++ "."
     ++ zeros (Z.to_nat nd - String.length frac) ++ frac)%string.

(** [f"{x:.<nd>f}"]. *)
Definition format_fixed (x : float) (nd : Z) : string :=
  match x with
  | S754_nan => "nan"%string
  | S754_infinity s => if s then "-inf"%string else "inf"%string
  | S754_zero s =>
      ((if s then "-" else "") ++ fixed_digits 0 nd)%string
  | S754_finite s m e =>
      ((if s then "-" else "") ++ fixed_digits (scaled m e nd) nd)%string
  end.

End F64.

(** ** Data model *)

Import F64 (float).

Inductive QuestionType := technical | behavioral | mixed.

Inductive Difficulty := easy | medium | hard.

Module Confidence.
Inductive t := low | medium | high.
End Confidence.

(** [QuestionRecord]: the keys [id], [text], [type], [difficulty], [topic]. *)
Record QuestionRecord := {
  q_id : string;
  q_text : string;
  q_type : QuestionType;
  q_difficulty : Difficulty;
  q_topic : string
}.

(** The [star] dictionary of an answer: keys S, T, A, R in that order. *)
Record StarUsage := {
  star_S : bool;
  star_T : bool;
  star_A : bool;
  star_R : bool
}.

(** [AnswerRecord].  The [feedback] text, derived from the same
    sub-scores, is left out: no property below reads it. *)
Record AnswerRecord := {
  question_id : string;
  user_answer : string;
  score : float;
  confidence : Confidence.t;
  star_usage : StarUsage;
  time_taken_sec : float
}.

Inductive Message :=
| HumanMessage (content : string)
| AIMessage (content : string).

(** The dictionary stored under [final_report]. *)
Record Report := {
  r_total_questions : Z;
  r_average_score : string;
  r_overall_confidence : string;
  r_star_coverage : string;
  r_behavioral_questions : Z;
  r_technical_questions : Z;
  r_strengths : list string;
  r_areas_to_improve : list string;
  r_next_steps : list string
}.

(** [InterviewState], restricted to the keys the interview loop reads or
    writes (the job description, the summaries and the competency texts of
    the content nodes are left out).  [None] is an absent key.  The same
    type serves for the updates the nodes return: there [None] is a key
    the update does not mention.  [current_question] can also hold
    Python's [None], hence the nested option; no node writes [None] under
    [start_time] or [final_report]. *)
Record InterviewState := {
  required_skills : option (list string);
  max_questions : option (Z);
  asked_questions : option (list QuestionRecord);
  answers : option (list AnswerRecord);
  difficulty : option (Difficulty);
  question_counter : option (Z);
  current_question : option (option QuestionRecord);
  start_time : option (float);
  awaiting_answer : option (bool);
  time_budget_min : option (Z);
  estimated_time_used_min : option (float);
  final_report : option (Report);
  messages : option (list Message);
  should_follow_up : option (bool);
  salary_negotiation_phase : option (bool);
  interview_complete : option (bool);
  behavioral_questions : option (Z);
  technical_questions : option (Z)
}.

(** The empty dictionary [{}]. *)
Definition empty : InterviewState := {|
  required_skills := None;
  max_questions := None;
  asked_questions := None;
  answers := None;
  difficulty := None;
  question_counter := None;
  current_question := None;
  start_time := None;
  awaiting_answer := None;
  time_budget_min := None;
  estimated_time_used_min := None;
  final_report := None;
  messages := None;
  should_follow_up := None;
  salary_negotiation_phase := None;
  interview_complete := None;
  behavioral_questions := None;
  technical_questions := None
|}.

(** [u] with the key set to [v]. *)
Definition set_required_skills (v : list string) (u : InterviewState) : InterviewState :=
  {| required_skills := Some v; max_questions := max_questions u;
     asked_questions := asked_questions u; answers := answers u; difficulty
     := difficulty u; question_counter := question_counter u;
     current_question := current_question u; start_time := start_time u;
     awaiting_answer := awaiting_answer u; time_budget_min := time_budget_min
     u; estimated_time_used_min := estimated_time_used_min u; final_report :=
     final_report u; messages := messages u; should_follow_up :=
     should_follow_up u; salary_negotiation_phase := salary_negotiation_phase
     u; interview_complete := interview_complete u; behavioral_questions :=
     behavioral_questions u; technical_questions := technical_questions u |}.

Definition set_max_questions (v : Z) (u : InterviewState) : InterviewState :=
  {| required_skills := required_skills u; max_questions := Some v;
     asked_questions := asked_questions u; answers := answers u; difficulty
     := difficulty u; question_counter := question_counter u;
     current_question := current_question u; start_time := start_time u;
     awaiting_answer := awaiting_answer u; time_budget_min := time_budget_min
     u; estimated_time_used_min := estimated_time_used_min u; final_report :=
     final_report u; messages := messages u; should_follow_up :=
     should_follow_up u; salary_negotiation_phase := salary_negotiation_phase
     u; interview_complete := interview_complete u; behavioral_questions :=
     behavioral_questions u; technical_questions := technical_questions u |}.

Definition set_asked_questions (v : list QuestionRecord) (u : InterviewState) : InterviewState :=
  {| required_skills := required_skills u; max_questions := max_questions u;
     asked_questions := Some v; answers := answers u; difficulty :=
     difficulty u; question_counter := question_counter u; current_question
     := current_question u; start_time := start_time u; awaiting_answer :=
     awaiting_answer u; time_budget_min := time_budget_min u;
     estimated_time_used_min := estimated_time_used_min u; final_report :=
     final_report u; messages := messages u; should_follow_up :=
     should_follow_up u; salary_negotiation_phase := salary_negotiation_phase
     u; interview_complete := interview_complete u; behavioral_questions :=
     behavioral_questions u; technical_questions := technical_questions u |}.

Definition set_answers (v : list AnswerRecord) (u : InterviewState) : InterviewState :=
  {| required_skills := required_skills u; max_questions := max_questions u;
     asked_questions := asked_questions u; answers := Some v; difficulty :=
     difficulty u; question_counter := question_counter u; current_question
     := current_question u; start_time := start_time u; awaiting_answer :=
     awaiting_answer u; time_budget_min := time_budget_min u;
     estimated_time_used_min := estimated_time_used_min u; final_report :=
     final_report u; messages := messages u; should_follow_up :=
     should_follow_up u; salary_negotiation_phase := salary_negotiation_phase
     u; interview_complete := interview_complete u; behavioral_questions :=
     behavioral_questions u; technical_questions := technical_questions u |}.

Definition set_difficulty (v : Difficulty) (u : InterviewState) : InterviewState :=
  {| required_skills := required_skills u; max_questions := max_questions u;
     asked_questions := asked_questions u; answers := answers u; difficulty
     := Some v; question_counter := question_counter u; current_question :=
     current_question u; start_time := start_time u; awaiting_answer :=
     awaiting_answer u; time_budget_min := time_budget_min u;
     estimated_time_used_min := estimated_time_used_min u; final_report :=
     final_report u; messages := messages u; should_follow_up :=
     should_follow_up u; salary_negotiation_phase := salary_negotiation_phase
     u; interview_complete := interview_complete u; behavioral_questions :=
     behavioral_questions u; technical_questions := technical_questions u |}.

Definition set_question_counter (v : Z) (u : InterviewState) : InterviewState :=
  {| required_skills := required_skills u; max_questions := max_questions u;
     asked_questions := asked_questions u; answers := answers u; difficulty
     := difficulty u; question_counter := Some v; current_question :=
     current_question u; start_time := start_time u; awaiting_answer :=
     awaiting_answer u; time_budget_min := time_budget_min u;
     estimated_time_used_min := estimated_time_used_min u; final_report :=
     final_report u; messages := messages u; should_follow_up :=
     should_follow_up u; salary_negotiation_phase := salary_negotiation_phase
     u; interview_complete := interview_complete u; behavioral_questions :=
     behavioral_questions u; technical_questions := technical_questions u |}.

Definition set_current_question (v : option QuestionRecord) (u : InterviewState) : InterviewState :=
  {| required_skills := required_skills u; max_questions := max_questions u;
     asked_questions := asked_questions u; answers := answers u; difficulty
     := difficulty u; question_counter := question_counter u;
     current_question := Some v; start_time := start_time u; awaiting_answer
     := awaiting_answer u; time_budget_min := time_budget_min u;
     estimated_time_used_min := estimated_time_used_min u; final_report :=
     final_report u; messages := messages u; should_follow_up :=
     should_follow_up u; salary_negotiation_phase := salary_negotiation_phase
     u; interview_complete := interview_complete u; behavioral_questions :=
     behavioral_questions u; technical_questions := technical_questions u |}.

Definition set_start_time (v : float) (u : InterviewState) : InterviewState :=
  {| required_skills := required_skills u; max_questions := max_questions u;
     asked_questions := asked_questions u; answers := answers u; difficulty
     := difficulty u; question_counter := question_counter u;
     current_question := current_question u; start_time := Some v;
     awaiting_answer := awaiting_answer u; time_budget_min := time_budget_min
     u; estimated_time_used_min := estimated_time_used_min u; final_report :=
     final_report u; messages := messages u; should_follow_up :=
     should_follow_up u; salary_negotiation_phase := salary_negotiation_phase
     u; interview_complete := interview_complete u; behavioral_questions :=
     behavioral_questions u; technical_questions := technical_questions u |}.

Definition set_awaiting_answer (v : bool) (u : InterviewState) : InterviewState :=
  {| required_skills := required_skills u; max_questions := max_questions u;
     asked_questions := asked_questions u; answers := answers u; difficulty
     := difficulty u; question_counter := question_counter u;
     current_question := current_question u; start_time := start_time u;
     awaiting_answer := Some v; time_budget_min := time_budget_min u;
     estimated_time_used_min := estimated_time_used_min u; final_report :=
     final_report u; messages := messages u; should_follow_up :=
     should_follow_up u; salary_negotiation_phase := salary_negotiation_phase
     u; interview_complete := interview_complete u; behavioral_questions :=
     behavioral_questions u; technical_questions := technical_questions u |}.

Definition set_time_budget_min (v : Z) (u : InterviewState) : InterviewState :=
  {| required_skills := required_skills u; max_questions := max_questions u;
     asked_questions := asked_questions u; answers := answers u; difficulty
     := difficulty u; question_counter := question_counter u;
     current_question := current_question u; start_time := start_time u;
     awaiting_answer := awaiting_answer u; time_budget_min := Some v;
     estimated_time_used_min := estimated_time_used_min u; final_report :=
     final_report u; messages := messages u; should_follow_up :=
     should_follow_up u; salary_negotiation_phase := salary_negotiation_phase
     u; interview_complete := interview_complete u; behavioral_questions :=
     behavioral_questions u; technical_questions := technical_questions u |}.

Definition set_estimated_time_used_min (v : float) (u : InterviewState) : InterviewState :=
  {| required_skills := required_skills u; max_questions := max_questions u;
     asked_questions := asked_questions u; answers := answers u; difficulty
     := difficulty u; question_counter := question_counter u;
     current_question := current_question u; start_time := start_time u;
     awaiting_answer := awaiting_answer u; time_budget_min := time_budget_min
     u; estimated_time_used_min := Some v; final_report := final_report u;
     messages := messages u; should_follow_up := should_follow_up u;
     salary_negotiation_phase := salary_negotiation_phase u;
     interview_complete := interview_complete u; behavioral_questions :=
     behavioral_questions u; technical_questions := technical_questions u |}.

Definition set_final_report (v : Report) (u : InterviewState) : InterviewState :=
  {| required_skills := required_skills u; max_questions := max_questions u;
     asked_questions := asked_questions u; answers := answers u; difficulty
     := difficulty u; question_counter := question_counter u;
     current_question := current_question u; start_time := start_time u;
     awaiting_answer := awaiting_answer u; time_budget_min := time_budget_min
     u; estimated_time_used_min := estimated_time_used_min u; final_report :=
     Some v; messages := messages u; should_follow_up := should_follow_up u;
     salary_negotiation_phase := salary_negotiation_phase u;
     interview_complete := interview_complete u; behavioral_questions :=
     behavioral_questions u; technical_questions := technical_questions u |}.

Definition set_messages (v : list Message) (u : InterviewState) : InterviewState :=
  {| required_skills := required_skills u; max_questions := max_questions u;
     asked_questions := asked_questions u; answers := answers u; difficulty
     := difficulty u; question_counter := question_counter u;
     current_question := current_question u; start_time := start_time u;
     awaiting_answer := awaiting_answer u; time_budget_min := time_budget_min
     u; estimated_time_used_min := estimated_time_used_min u; final_report :=
     final_report u; messages := Some v; should_follow_up := should_follow_up
     u; salary_negotiation_phase := salary_negotiation_phase u;
     interview_complete := interview_complete u; behavioral_questions :=
     behavioral_questions u; technical_questions := technical_questions u |}.

Definition set_should_follow_up (v : bool) (u : InterviewState) : InterviewState :=
  {| required_skills := required_skills u; max_questions := max_questions u;
     asked_questions := asked_questions u; answers := answers u; difficulty
     := difficulty u; question_counter := question_counter u;
     current_question := current_question u; start_time := start_time u;
     awaiting_answer := awaiting_answer u; time_budget_min := time_budget_min
     u; estimated_time_used_min := estimated_time_used_min u; final_report :=
     final_report u; messages := messages u; should_follow_up := Some v;
     salary_negotiation_phase := salary_negotiation_phase u;
     interview_complete := interview_complete u; behavioral_questions :=
     behavioral_questions u; technical_questions := technical_questions u |}.

Definition set_salary_negotiation_phase (v : bool) (u : InterviewState) : InterviewState :=
  {| required_skills := required_skills u; max_questions := max_questions u;
     asked_questions := asked_questions u; answers := answers u; difficulty
     := difficulty u; question_counter := question_counter u;
     current_question := current_question u; start_time := start_time u;
     awaiting_answer := awaiting_answer u; time_budget_min := time_budget_min
     u; estimated_time_used_min := estimated_time_used_min u; final_report :=
     final_report u; messages := messages u; should_follow_up :=
     should_follow_up u; salary_negotiation_phase := Some v;
     interview_complete := interview_complete u; behavioral_questions :=
     behavioral_questions u; technical_questions := technical_questions u |}.

Definition set_interview_complete (v : bool) (u : InterviewState) : InterviewState :=
  {| required_skills := required_skills u; max_questions := max_questions u;
     asked_questions := asked_questions u; answers := answers u; difficulty
     := difficulty u; question_counter := question_counter u;
     current_question := current_question u; start_time := start_time u;
     awaiting_answer := awaiting_answer u; time_budget_min := time_budget_min
     u; estimated_time_used_min := estimated_time_used_min u; final_report :=
     final_report u; messages := messages u; should_follow_up :=
     should_follow_up u; salary_negotiation_phase := salary_negotiation_phase
     u; interview_complete := Some v; behavioral_questions :=
     behavioral_questions u; technical_questions := technical_questions u |}.

Definition set_behavioral_questions (v : Z) (u : InterviewState) : InterviewState :=
  {| required_skills := required_skills u; max_questions := max_questions u;
     asked_questions := asked_questions u; answers := answers u; difficulty
     := difficulty u; question_counter := question_counter u;
     current_question := current_question u; start_time := start_time u;
     awaiting_answer := awaiting_answer u; time_budget_min := time_budget_min
     u; estimated_time_used_min := estimated_time_used_min u; final_report :=
     final_report u; messages := messages u; should_follow_up :=
     should_follow_up u; salary_negotiation_phase := salary_negotiation_phase
     u; interview_complete := interview_complete u; behavioral_questions :=
     Some v; technical_questions := technical_questions u |}.

Definition set_technical_questions (v : Z) (u : InterviewState) : InterviewState :=
  {| required_skills := required_skills u; max_questions := max_questions u;
     asked_questions := asked_questions u; answers := answers u; difficulty
     := difficulty u; question_counter := question_counter u;
     current_question := current_question u; start_time := start_time u;
     awaiting_answer := awaiting_answer u; time_budget_min := time_budget_min
     u; estimated_time_used_min := estimated_time_used_min u; final_report :=
     final_report u; messages := messages u; should_follow_up :=
     should_follow_up u; salary_negotiation_phase := salary_negotiation_phase
     u; interview_complete := interview_complete u; behavioral_questions :=
     behavioral_questions u; technical_questions := Some v |}.

(** How the graph merges the update [u] of a node into the state [s]:
    every key of the update overwrites (no key has a reducer). *)
Definition or_else {A} (x y : option A) : option A :=
  match x with Some _ => x | None => y end.

Definition apply_update (u s : InterviewState) : InterviewState := {|
  required_skills := or_else (required_skills u) (required_skills s);
  max_questions := or_else (max_questions u) (max_questions s);
  asked_questions := or_else (asked_questions u) (asked_questions s);
  answers := or_else (answers u) (answers s);
  difficulty := or_else (difficulty u) (difficulty s);
  question_counter := or_else (question_counter u) (question_counter s);
  current_question := or_else (current_question u) (current_question s);
  start_time := or_else (start_time u) (start_time s);
  awaiting_answer := or_else (awaiting_answer u) (awaiting_answer s);
  time_budget_min := or_else (time_budget_min u) (time_budget_min s);
  estimated_time_used_min := or_else (estimated_time_used_min u) (estimated_time_used_min s);
  final_report := or_else (final_report u) (final_report s);
  messages := or_else (messages u) (messages s);
  should_follow_up := or_else (should_follow_up u) (should_follow_up s);
  salary_negotiation_phase := or_else (salary_negotiation_phase u) (salary_negotiation_phase s);
  interview_complete := or_else (interview_complete u) (interview_complete s);
  behavioral_questions := or_else (behavioral_questions u) (behavioral_questions s);
  technical_questions := or_else (technical_questions u) (technical_questions s)
|}.

(** ** Exceptions and dictionary access *)

Inductive exn :=
| KeyError (key : string)
| TypeError.

Inductive result (A : Type) :=
| Ok (v : A)
| Raise (e : exn).

Arguments Ok {A} v.
Arguments Raise {A} e.

Definition bind {A B} (r : result A) (k : A -> result B) : result B :=
  match r with
  | Ok v => k v
  | Raise e => Raise e
  end.

Notation "x <- r ;; k" := (bind r (fun x => k))
  (at level 61, r at next level, right associativity).

(** [state[key]]. *)
Definition item {A} (key : string) (field : option A) : result A :=
  match field with
  | Some v => Ok v
  | None => Raise (KeyError key)
  end.

(** [state.get(key, d)]. *)
Definition get {A} (field : option A) (d : A) : A :=
  match field with
  | Some v => v
  | None => d
  end.

(** [state.get(key)] of a boolean key in a condition: absent is falsy. *)
Definition truthy (field : option bool) : bool := get field false.

(** [next((m.content for m in reversed(msgs) if isinstance(m, HumanMessage)), "")]. *)
Definition last_human_content (msgs : list Message) : string :=
  match
    find (fun m => match m with HumanMessage _ => true | AIMessage _ => false end)
         (rev msgs)
  with
  | Some (HumanMessage c) => c
  | _ => ""%string
  end.

Definition Difficulty_eqb (a b : Difficulty) : bool :=
  match a, b with
  | easy, easy | medium, medium | hard, hard => true
  | _, _ => false
  end.

(** [x in l] for strings. *)
Definition mem (x : string) (l : list string) : bool :=
  existsb (String.eqb x) l.

(** ** The answer rubric (the scoring part of [evaluate_answer]) *)

Definition STAR_S : list string :=
  ["situation"; "context"; "background"; "scenario"; "role"; "previous";
   "company"; "corp"]%string.
Definition STAR_T : list string :=
  ["task"; "goal"; "responsibility"; "assigned"; "tasked"; "objective";
   "challenge"]%string.
Definition STAR_A : list string :=
  ["action"; "implemented"; "did"; "used"; "applied"; "developed";
   "created"; "built"; "handled"]%string.
Definition STAR_R : list string :=
  ["result"; "impact"; "outcome"; "achieved"; "improved"; "reduced";
   "increased"; "handled"; "traffic"]%string.

(** The dictionary [star] built from the lower-cased answer. *)
Definition star_of (lower : string) : StarUsage := {|
  star_S := PyStr.any_in STAR_S lower;
  star_T := PyStr.any_in STAR_T lower;
  star_A := PyStr.any_in STAR_A lower;
  star_R := PyStr.any_in STAR_R lower
|}.

(** [sum(star.values())]: booleans add as 0 and 1. *)
Definition star_sum (st : StarUsage) : Z :=
  Z.b2z (star_S st) + Z.b2z (star_T st) + Z.b2z (star_A st) + Z.b2z (star_R st).

(** [star_score = sum(star.values()) / 4]. *)
Definition star_score_of (st : StarUsage) : float :=
  F64.int_true_div (star_sum st) 4.

(** [rel = 1.0 if any(skill.lower() in lower for skill in skills) else 0.5]. *)
Definition rel_of (skills : list string) (lower : string) : float :=
  if existsb (fun skill => PyStr.contains (PyStr.lower skill) lower) skills
  then F64.lit 1.0 else F64.lit 0.5.

(** [detail = min(len(ans.split()) / 80, 1.0)]. *)
Definition detail_of (ans : string) : float :=
  F64.min (F64.int_true_div (PyStr.word_count ans) 80) (F64.lit 1.0).

(** [round((star_score * 0.5 + rel * 0.3 + detail * 0.2) * 5, 2)]. *)
Definition weighted (star_score rel detail : float) : float :=
  F64.round
    (F64.mul
       (F64.add (F64.add (F64.mul star_score (F64.lit 0.5))
                         (F64.mul rel (F64.lit 0.3)))
                (F64.mul detail (F64.lit 0.2)))
       (F64.of_int 5))
    2.

Definition score_of (skills : list string) (ans : string) : float :=
  let lower := PyStr.lower ans in
  weighted (star_score_of (star_of lower)) (rel_of skills lower) (detail_of ans).

(** The [if score >= 4.0 / elif score >= 2.8 / else] ladder. *)
Definition conf_of (score : float) : Confidence.t :=
  if F64.geb score (F64.lit 4.0) then Confidence.high
  else if F64.geb score (F64.lit 2.8) then Confidence.medium
  else Confidence.low.

(** The difficulty adjustment block: the update gets a [difficulty] key
    only on the four arms that assign one. *)
Definition adjust_difficulty (current_difficulty : Difficulty) (score : float)
    (update : InterviewState) : InterviewState :=
  if F64.geb score (F64.lit 4.2) then
    match current_difficulty with
    | easy => set_difficulty medium update
    | medium => set_difficulty hard update
    | hard => update
    end
  else if F64.ltb score (F64.lit 3.0) then
    match current_difficulty with
    | hard => set_difficulty medium update
    | medium => set_difficulty easy update
    | easy => update
    end
  else update.

(** [2.8 <= score < 4.2]. *)
Definition follow_up_warranted (score : float) : bool :=
  F64.leb (F64.lit 2.8) score && F64.ltb score (F64.lit 4.2).

(** ** The nodes of the graph *)

Section Nodes.

(** The module-level [QUESTION_BANK], read once from question_bank.json
    (the empty list when the file cannot be read). *)
Variable QUESTION_BANK : list QuestionRecord.

(** [parse_job_description], on the modelled keys: the skills are fixed. *)
Definition parse_job_description (state : InterviewState) : InterviewState :=
  set_required_skills
    ["Python"; "REST APIs"; "Microservices"; "SQL"; "Docker"; "Unit Testing";
     "CI/CD"]%string
    empty.

(** [research_company] writes [company_insights] only. *)
Definition research_company (state : InterviewState) : InterviewState := empty.

Definition analyze_role (state : InterviewState) : InterviewState :=
  set_difficulty (get (difficulty state) medium)
  (set_question_counter 0
  (set_asked_questions []
  (set_answers []
  (set_awaiting_answer false
  (set_time_budget_min (get (time_budget_min state) 15)
  (set_estimated_time_used_min (F64.lit 0.0)
  (set_behavioral_questions 0
  (set_technical_questions 0 empty)))))))).

Definition _select_question (state : InterviewState) : option QuestionRecord :=
  let used_ids := map q_id (get (asked_questions state) []) in
  let difficulty := get (difficulty state) medium in
  let candidates :=
    filter (fun q =>
              existsb (Difficulty_eqb (q_difficulty q)) [difficulty; medium]
              && negb (mem (q_id q) used_ids))
           QUESTION_BANK in
  let candidates :=
    match candidates with
    | [] => filter (fun q => negb (mem (q_id q) used_ids)) QUESTION_BANK
    | _ :: _ => candidates
    end in
  match candidates with
  | [] => None
  | q :: _ => Some q
  end.

Definition generate_question (now : float) (state : InterviewState)
  : result InterviewState :=
  let max_q := get (max_questions state) 5 in
  if get (question_counter state) 0 >=? max_q
  then Ok (set_current_question None empty)
  else
    match _select_question state with
    | None => Ok (set_current_question None empty)
    | Some q =>
        asked <- item "asked_questions" (asked_questions state) ;;
        let new_asked_questions := asked ++ [q] in
        let new_messages :=
          get (messages state) []
          ++ [AIMessage ("Question: " ++ q_text q)%string] in
        counter <- item "question_counter" (question_counter state) ;;
        let update :=
          set_current_question (Some q)
          (set_start_time now
          (set_question_counter (counter + 1)
          (set_asked_questions new_asked_questions
          (set_awaiting_answer true
          (set_messages new_messages empty))))) in
        Ok match q_type q with
           | behavioral =>
               set_behavioral_questions
                 (get (behavioral_questions state) 0 + 1) update
           | technical =>
               set_technical_questions
                 (get (technical_questions state) 0 + 1) update
           | mixed => update
           end
    end.

Definition generate_follow_up_question (now : float) (state : InterviewState)
  : result InterviewState :=
  if negb (truthy (should_follow_up state)) then Ok empty
  else
    previous_question <- item "current_question" (current_question state) ;;
    msgs <- item "messages" (messages state) ;;
    let previous_answer := last_human_content msgs in
    let follow_up_text :=
      ("That's an interesting point about '" ++ PyStr.take 20 previous_answer
       ++ "...'. Can you elaborate on the challenges you faced?")%string in
    match previous_question with
    | None => Raise TypeError
    | Some previous_question =>
        let follow_up_question := {|
          q_id := ("followup_" ++ q_id previous_question)%string;
          q_text := follow_up_text;
          q_type := q_type previous_question;
          q_difficulty := q_difficulty previous_question;
          q_topic := q_topic previous_question
        |} in
        asked <- item "asked_questions" (asked_questions state) ;;
        let new_asked_questions := asked ++ [follow_up_question] in
        let new_messages :=
          msgs ++ [AIMessage ("Follow-up: " ++ q_text follow_up_question)%string] in
        counter <- item "question_counter" (question_counter state) ;;
        Ok (set_current_question (Some follow_up_question)
           (set_start_time now
           (set_question_counter (counter + 1)
           (set_asked_questions new_asked_questions
           (set_awaiting_answer true
           (set_messages new_messages
           (set_should_follow_up false empty)))))))
    end.

Definition evaluate_answer (now : float) (state : InterviewState)
  : result InterviewState :=
  if negb (truthy (awaiting_answer state)) then Ok empty
  else
    q <- item "current_question" (current_question state) ;;
    match q with
    | None => Ok empty
    | Some q =>
        msgs <- item "messages" (messages state) ;;
        let ans := last_human_content msgs in
        let lower := PyStr.lower ans in
        let star := star_of lower in
        let score := score_of (get (required_skills state) []) ans in
        let conf := conf_of score in
        start <- item "start_time" (start_time state) ;;
        let rec := {|
          question_id := q_id q;
          user_answer := ans;
          score := score;
          confidence := conf;
          star_usage := star;
          time_taken_sec := F64.sub now start
        |} in
        old <- item "answers" (answers state) ;;
        let update :=
          set_answers (old ++ [rec])
          (set_awaiting_answer false
          (set_should_follow_up false empty)) in
        current_difficulty <- item "difficulty" (difficulty state) ;;
        let update := adjust_difficulty current_difficulty score update in
        let update :=
          if follow_up_warranted score
          then set_should_follow_up true update
          else update in
        Ok update
    end.

Definition update_progress (state : InterviewState) : result InterviewState :=
  ans <- item "answers" (answers state) ;;
  match rev ans with
  | [] => Ok empty
  | last_answer :: _ =>
      let last_answer_time_sec := time_taken_sec last_answer in
      est <- item "estimated_time_used_min" (estimated_time_used_min state) ;;
      let new_estimated_time :=
        F64.add est (F64.div last_answer_time_sec (F64.lit 60.0)) in
      let avg :=
        F64.div (F64.sum (map score ans)) (F64.of_int (Z.of_nat (List.length ans))) in
      Ok (set_estimated_time_used_min new_estimated_time
         (set_messages
            (get (messages state) []
             ++ [AIMessage ("Progress: " ++ F64.format_fixed avg 2
                            ++ "/5 avg score.")%string])
            empty))
  end.

(** The names of the nodes, which are also the labels [controller]
    returns. *)
Inductive Node :=
| n_parse_job_description
| n_research_company
| n_analyze_role
| n_generate_question
| n_evaluate_answer
| n_generate_follow_up_question
| n_update_progress
| n_generate_final_report
| n_save_progress
| n_start_salary_negotiation
| n_negotiate_salary
| END.

(** [controller].  On the time-limit arm the source also appends a
    "Time limit reached." message to the dictionary it was handed; the
    label it returns does not depend on it, and of the messages the nodes
    only read the last human one. *)
Definition controller (state : InterviewState) : Node :=
  if truthy (interview_complete state) then
    if negb (truthy (salary_negotiation_phase state))
    then n_start_salary_negotiation
    else n_save_progress
  else if get (should_follow_up state) false then
    n_generate_follow_up_question
  else if F64.geb_int (get (estimated_time_used_min state) (F64.lit 0.0))
                      (get (time_budget_min state) 15) then
    n_generate_final_report
  else if get (question_counter state) 0 >=? get (max_questions state) 5 then
    n_generate_final_report
  else n_generate_question.

(** [sum(sum(a["star_usage"].values()) for a in answers)]. *)
Definition star_total (answers : list AnswerRecord) : Z :=
  fold_left Z.add (map (fun a => star_sum (star_usage a)) answers) 0.

Definition empty_report : Report := {|
  r_total_questions := 0;
  r_average_score := "0.00";
  r_overall_confidence := "Low";
  r_star_coverage := "0%";
  r_behavioral_questions := 0;
  r_technical_questions := 0;
  r_strengths := ["No questions answered."%string];
  r_areas_to_improve := ["Complete the interview to get feedback."%string];
  r_next_steps := ["Try running the interview simulation again."%string]
|}.

(** The [report] dictionary of [generate_final_report]. *)
Definition build_report (state : InterviewState) : Report :=
  let answers := get (answers state) [] in
  match answers with
  | [] => empty_report
  | _ :: _ =>
      let total_questions := Z.of_nat (List.length answers) in
      let average_score :=
        F64.div (F64.sum (map score answers)) (F64.of_int total_questions) in
      let average_star_coverage :=
        F64.mul (F64.int_true_div (star_total answers) (total_questions * 4))
                (F64.of_int 100) in
      let overall_confidence :=
        if F64.geb average_score (F64.lit 4.0) then "High"
        else if F64.geb average_score (F64.lit 2.8) then "Medium"
        else "Low" in
      let strengths := [] in
      let areas_to_improve := [] in
      let '(strengths, areas_to_improve) :=
        if F64.geb average_score (F64.lit 4.0) then
          (strengths
           ++ ["Strong overall performance and clear communication."],
           areas_to_improve)
        else if F64.ltb average_score (F64.lit 2.5) then
          (strengths,
           areas_to_improve
           ++ ["Focus on providing more detailed and structured answers."])
        else (strengths, areas_to_improve) in
      let '(strengths, areas_to_improve) :=
        if F64.gtb_int average_star_coverage 75 then
          (strengths ++ ["Excellent use of the STAR method."],
           areas_to_improve)
        else
          (strengths,
           areas_to_improve
           ++ ["Work on consistently applying the STAR method (Situation, Task, Action, Result)."]) in
      let low_scoring_answers :=
        filter (fun a => F64.ltb (score a) (F64.lit 3.0)) answers in
      let areas_to_improve :=
        if F64.int_gtb (Z.of_nat (List.length low_scoring_answers))
                       (F64.int_true_div (Z.of_nat (List.length answers)) 2)
        then areas_to_improve
             ++ ["Elaborate more on the results and impact of your actions."]
        else areas_to_improve in
      {|
        r_total_questions := total_questions;
        r_average_score := F64.format_fixed average_score 2;
        r_overall_confidence := overall_confidence;
        r_star_coverage := (F64.format_fixed average_star_coverage 0 ++ "%")%string;
        r_behavioral_questions := get (behavioral_questions state) 0;
        r_technical_questions := get (technical_questions state) 0;
        r_strengths :=
          match strengths with
          | [] => ["Good effort, keep practicing."]
          | _ :: _ => strengths
          end;
        r_areas_to_improve :=
          match areas_to_improve with
          | [] => ["Continue to refine your stories."]
          | _ :: _ => areas_to_improve
          end;
        r_next_steps :=
          ["Review the feedback for each question to identify patterns.";
           "Prepare 2-3 additional stories using the STAR method for common behavioral questions.";
           "Practice articulating the impact of your work with measurable outcomes."]
      |}
  end.

Definition generate_final_report (state : InterviewState) : InterviewState :=
  set_final_report (build_report state)
  (set_interview_complete true
  (set_messages
     (get (messages state) []
      ++ [AIMessage "Interview complete. Generating final report."])
     empty)).

Definition start_salary_negotiation (state : InterviewState) : InterviewState :=
  set_salary_negotiation_phase true empty.

Definition negotiate_salary (now : float) (state : InterviewState)
  : InterviewState :=
  if negb (truthy (salary_negotiation_phase state)) then empty
  else
    let salary_questions :=
      filter (fun q => String.eqb (q_topic q) "Salary") QUESTION_BANK in
    match salary_questions with
    | [] => empty
    | question :: _ =>
        set_current_question (Some question)
        (set_start_time now
        (set_awaiting_answer true
        (set_messages
           (get (messages state) []
            ++ [AIMessage ("Now, let's discuss salary. " ++ q_text question)%string])
           empty)))
    end.

(** [save_progress] appends to a log file and returns [{}]. *)
Definition save_progress (state : InterviewState) : InterviewState := empty.

(** *** The graph of [build_interview_graph] *)

(** The function of a node, applied at clock reading [now]. *)
Definition node_update (n : Node) (now : float) (state : InterviewState)
  : result InterviewState :=
  match n with
  | n_parse_job_description => Ok (parse_job_description state)
  | n_research_company => Ok (research_company state)
  | n_analyze_role => Ok (analyze_role state)
  | n_generate_question => generate_question now state
  | n_evaluate_answer => evaluate_answer now state
  | n_generate_follow_up_question => generate_follow_up_question now state
  | n_update_progress => update_progress state
  | n_generate_final_report => Ok (generate_final_report state)
  | n_save_progress => Ok (save_progress state)
  | n_start_salary_negotiation => Ok (start_salary_negotiation state)
  | n_negotiate_salary => Ok (negotiate_salary now state)
  | END => Ok empty
  end.

(** [controller_edges]: the five labels map to the nodes of the same name. *)
Definition controller_edges (label : Node) : result Node :=
  match label with
  | n_generate_question | n_generate_follow_up_question
  | n_generate_final_report | n_save_progress
  | n_start_salary_negotiation => Ok label
  | _ => Raise (KeyError "controller_edges")
  end.

(** The two-entry mapping of the edges that leave [generate_final_report]. *)
Definition report_edges (label : Node) : result Node :=
  match label with
  | n_start_salary_negotiation | n_save_progress => Ok label
  | _ => Raise (KeyError "report_edges")
  end.

(** The node that runs after [n], given the state [n] left. *)
Definition successor (n : Node) (state : InterviewState) : result Node :=
  match n with
  | n_parse_job_description => Ok n_research_company
  | n_research_company => Ok n_analyze_role
  | n_generate_question => Ok n_evaluate_answer
  | n_generate_follow_up_question => Ok n_evaluate_answer
  | n_negotiate_salary => Ok n_evaluate_answer
  | n_evaluate_answer => Ok n_update_progress
  | n_start_salary_negotiation => Ok n_negotiate_salary
  | n_analyze_role => controller_edges (controller state)
  | n_update_progress => controller_edges (controller state)
  | n_generate_final_report => report_edges (controller state)
  | n_save_progress => Ok END
  | END => Ok END
  end.

(** One step of the graph: run node [n], merge its update, follow the
    edge. *)
Definition step (now : float) (n : Node) (state : InterviewState)
  : result (Node * InterviewState) :=
  u <- node_update n now state ;;
  let state' := apply_update u state in
  n' <- successor n state' ;;
  Ok (n', state').

(** [k] steps from node [n]; the [i]-th step reads the clock [clock i]. *)
Fixpoint run (k : nat) (clock : nat -> float) (n : Node)
    (state : InterviewState) : result (Node * InterviewState) :=
  match k with
  | O => Ok (n, state)
  | S k' =>
      c <- step (clock O) n state ;;
      run k' (fun i => clock (S i)) (fst c) (snd c)
  end.

End Nodes.

(** ** Definitions the statements below are written with *)

(** The float [1.0]. *)
Definition one : float := S754_finite false 4503599627370496 (-52).

(** *** The rubric, in the words of the specification *)

(** The number of STAR keyword sets with a member in the lower-cased
    answer. *)
Definition matched_sets (lower : string) : Z :=
  Z.of_nat
    (List.length
       (filter (fun kws => PyStr.any_in kws lower)
               [STAR_S; STAR_T; STAR_A; STAR_R])).

(** The score of an answer that matches [k] keyword sets, mentions a
    required skill or not ([r]) and has [wc] words. *)
Definition score_case (k : Z) (r : bool) (wc : Z) : float :=
  weighted (F64.int_true_div k 4) (if r then F64.lit 1.0 else F64.lit 0.5)
           (F64.min (F64.int_true_div wc 80) (F64.lit 1.0)).

(** What is checked of a score: it lies in [0, 5], and on it [<] is the
    negation of [>=] at both thresholds (the score is a number). *)
Definition rubric_ok (x : float) : bool :=
  F64.leb (F64.lit 0.0) x && F64.leb x (F64.lit 5.0)
  && Bool.eqb (negb (F64.geb x (F64.lit 4.0))) (F64.ltb x (F64.lit 4.0))
  && Bool.eqb (negb (F64.geb x (F64.lit 2.8))) (F64.ltb x (F64.lit 2.8))
  && implb (F64.geb x (F64.lit 4.0)) (F64.geb x (F64.lit 2.8)).

(** [0; 1; ...; n - 1]. *)
Definition upto (n : nat) : list Z := map Z.of_nat (seq 0 n).

(** Every combination of 0..4 matched sets, relevance, and 0..80 words. *)
Definition rubric_cases : list (Z * bool * Z) :=
  flat_map (fun k => flat_map (fun r => map (fun wc => (k, r, wc)) (upto 81))
                              [true; false])
           (upto 5).

(** The record [rec] that [evaluate_answer] appends. *)
Definition answer_record (now : float) (state : InterviewState)
    (q : QuestionRecord) (msgs : list Message) (start : float)
  : AnswerRecord :=
  let ans := last_human_content msgs in {|
    question_id := q_id q;
    user_answer := ans;
    score := score_of (get (required_skills state) []) ans;
    confidence := conf_of (score_of (get (required_skills state) []) ans);
    star_usage := star_of (PyStr.lower ans);
    time_taken_sec := F64.sub now start
  |}.

(** The update [evaluate_answer] returns once its guards are passed. *)
Definition evaluation (old : list AnswerRecord) (rec : AnswerRecord)
    (d : Difficulty) : InterviewState :=
  let update :=
    adjust_difficulty d (score rec)
      (set_answers (old ++ [rec])
         (set_awaiting_answer false (set_should_follow_up false empty))) in
  if follow_up_warranted (score rec)
  then set_should_follow_up true update else update.

(** *** Question selection, in the words of the specification *)

Definition asked_ids (state : InterviewState) : list string :=
  map q_id (get (asked_questions state) []).

Definition unused (state : InterviewState) (q : QuestionRecord) : Prop :=
  ~ In (q_id q) (asked_ids state).

(** Unused, and of the current difficulty or of medium difficulty. *)
Definition eligible (state : InterviewState) (q : QuestionRecord) : Prop :=
  (q_difficulty q = get (difficulty state) medium \/ q_difficulty q = medium)
  /\ unused state q.

(** [q] is the first entry of [bank] that satisfies [P]. *)
Definition first_in (P : QuestionRecord -> Prop) (bank : list QuestionRecord)
    (q : QuestionRecord) : Prop :=
  exists before after,
    bank = before ++ q :: after /\ P q /\ forall x, In x before -> ~ P x.

(** *** Difficulty and follow-up *)

(** The position of a tier in the order easy, medium, hard. *)
Definition rank (d : Difficulty) : Z :=
  match d with easy => 0 | medium => 1 | hard => 2 end.

(** [nextDifficulty] as the specification tabulates it. *)
Definition nextDifficulty (current : Difficulty) (score : float) : Difficulty :=
  if F64.geb score (F64.lit 4.2) then
    match current with easy => medium | medium => hard | hard => hard end
  else if F64.ltb score (F64.lit 3.0) then
    match current with hard => medium | medium => easy | easy => easy end
  else current.

(** The follow-up question synthesized for [parent] and the answer [ans]. *)
Definition followup_of (parent : QuestionRecord) (ans : string)
  : QuestionRecord := {|
  q_id := ("followup_" ++ q_id parent)%string;
  q_text := ("That's an interesting point about '" ++ PyStr.take 20 ans
             ++ "...'. Can you elaborate on the challenges you faced?")%string;
  q_type := q_type parent;
  q_difficulty := q_difficulty parent;
  q_topic := q_topic parent
|}.

(** [max_questions - question_counter]: what is left of the quota. *)
Definition quota_left (state : InterviewState) : Z :=
  get (max_questions state) 5 - get (question_counter state) 0.

(** A truthy [awaiting_answer] comes with a [current_question] key: what
    [evaluate_answer] needs for its second guard not to raise. *)
Definition guard_safe (s : InterviewState) : Prop :=
  truthy (awaiting_answer s) = true -> current_question s <> None.

(** *** The report *)





(** *** Sessions used as concrete inputs *)

(** The [init] dictionary of the [__main__] block, on the modelled keys. *)
Definition main_init (max_q : Z) : InterviewState :=
  set_max_questions max_q (set_time_budget_min 15 (set_messages [] empty)).

(** A clock that advances one minute per step, from 100 s. *)
Definition minute_clock (i : nat) : float :=
  F64.of_int (100 + 60 * Z.of_nat i).

Definition python_question : QuestionRecord := {|
  q_id := "q1";
  q_text := "Tell me about a Python service you built.";
  q_type := technical;
  q_difficulty := medium;
  q_topic := "Python"
|}.

Definition salary_question : QuestionRecord := {|
  q_id := "sal1";
  q_text := "What are your salary expectations?";
  q_type := behavioral;
  q_difficulty := medium;
  q_topic := "Salary"
|}.

(** The state [analyze_role] leaves from [main_init 5]. *)
Definition prepared : InterviewState :=
  Eval vm_compute in
  let s1 := apply_update (parse_job_description (main_init 5)) (main_init 5) in
  let s2 := apply_update (research_company s1) s1 in
  apply_update (analyze_role s2) s2.

(** The same state once [generate_question] has written
    [current_question = None]. *)
Definition stalled : InterviewState :=
  Eval vm_compute in apply_update (set_current_question None empty) prepared.

(** A 17-word answer that touches the four STAR sets and names a skill. *)
Definition star_answer : string :=
  "In my previous role the task was a Python service; I implemented it and the result improved".

(** A state in which [python_question] was posed at 100 s and answered. *)
Definition answering : InterviewState :=
  set_awaiting_answer true
  (set_current_question (Some python_question)
  (set_messages [AIMessage "Question: Tell me about a Python service you built.";
                 HumanMessage star_answer]
  (set_start_time (F64.of_int 100)
  (set_answers []
  (set_difficulty medium
  (set_asked_questions [python_question]
  (set_question_counter 1
  (set_required_skills ["Python"] empty)))))))).

(** The same session with a follow-up pending. *)
Definition probing : InterviewState :=
  set_should_follow_up true (set_awaiting_answer false answering).



(** ** Definitions for the properties of whole runs *)

(** [len(asked_questions) == question_counter]. *)
Definition counter_matches (s : InterviewState) : Prop :=
  exists asked,
    asked_questions s = Some asked
    /\ question_counter s = Some (Z.of_nat (List.length asked)).

(** The nodes of the interview loop and of what follows it: every node but
    the three preparation nodes. *)
Definition in_loop (n : Node) : bool :=
  match n with
  | n_parse_job_description | n_research_company | n_analyze_role => false
  | _ => true
  end.

(** Until the salary stage starts, every recorded answer, and the question
    that awaits one, is for an asked question. *)
Definition answers_are_asked (s : InterviewState) : Prop :=
  truthy (salary_negotiation_phase s) = false ->
  (forall a, In a (get (answers s) []) -> In (question_id a) (asked_ids s))
  /\ (truthy (awaiting_answer s) = true ->
      forall q, current_question s = Some (Some q) -> In (q_id q) (asked_ids s)).

(** The keys [analyze_role] writes and the loop reads with [state[...]]. *)
Definition loop_keys (s : InterviewState) : Prop :=
  asked_questions s <> None /\ question_counter s <> None
  /\ answers s <> None /\ difficulty s <> None
  /\ estimated_time_used_min s <> None.

(** A question is posed: the keys a pending answer or follow-up reads. *)
Definition question_posed (s : InterviewState) : Prop :=
  (exists q, current_question s = Some (Some q))
  /\ messages s <> None /\ start_time s <> None.

(** What holds of the state on entry to node [n] in a session that started
    without a pending follow-up: the loop keys are present, an answer is
    awaited only on entry to [evaluate_answer], and whatever is pending has
    its question. *)
Definition well_keyed (n : Node) (s : InterviewState) : Prop :=
  in_loop n = true
  /\ loop_keys s
  /\ (truthy (awaiting_answer s) = true ->
      n = n_evaluate_answer /\ question_posed s)
  /\ (truthy (should_follow_up s) = true -> question_posed s)
  /\ (n = n_generate_question -> truthy (should_follow_up s) = false).

(** The state the three preparation nodes leave: [parse_job_description],
    [research_company], [analyze_role], each merged in turn. *)
Definition prepare (init : InterviewState) : InterviewState :=
  let s1 := apply_update (parse_job_description init) init in
  let s2 := apply_update (research_company s1) s1 in
  apply_update (analyze_role s2) s2.

(** [l'] is [l] with entries appended. *)
Definition extends {A} (l l' : list A) : Prop := exists more, l' = l ++ more.

(** The skills [parse_job_description] writes. *)
Definition parsed_skills : list string :=
  ["Python"; "REST APIs"; "Microservices"; "SQL"; "Docker"; "Unit Testing";
   "CI/CD"]%string.

(** Every recorded answer is the text [h], scored against [skills]. *)
Definition answers_echo (skills : list string) (h : string)
    (s : InterviewState) : Prop :=
  get (required_skills s) [] = skills
  /\ last_human_content (get (messages s) []) = h
  /\ forall a, In a (get (answers s) []) ->
       user_answer a = h /\ score a = score_of skills h.

(** A bank of two questions, and the session [__main__] starts on it with
    a clock that advances one minute per node. *)
Definition demo_bank : list QuestionRecord := [python_question; salary_question].

Definition session (k : nat) : result (Node * InterviewState) :=
  run demo_bank k minute_clock n_parse_job_description (main_init 5).

Definition session_node (k : nat) : Node :=
  match session k with Ok (n, _) => n | Raise _ => END end.

Definition session_state (k : nat) : InterviewState :=
  match session k with Ok (_, s) => s | Raise _ => empty end.

(** The number of nodes still to run, after the report, before [END]. *)
Definition tail_rank (n : Node) : nat :=
  match n with
  | n_start_salary_negotiation => 5
  | n_negotiate_salary => 4
  | n_evaluate_answer => 3
  | n_update_progress => 2
  | n_save_progress => 1
  | _ => 0
  end.

(** The states of the closing stage: the interview is complete, and past
    [start_salary_negotiation] the salary phase is on. *)
Definition closing (n : Node) (s : InterviewState) : Prop :=
  well_keyed n s
  /\ truthy (interview_complete s) = true
  /\ match n with
     | n_start_salary_negotiation | n_save_progress | END => True
     | n_negotiate_salary | n_evaluate_answer | n_update_progress =>
         truthy (salary_negotiation_phase s) = true
     | _ => False
     end.

(** What the closing stage leaves as it was, and the one answer it may
    add while [evaluate_answer] is still ahead. *)
Definition closes (n : Node) (s s' : InterviewState) : Prop :=
  final_report s' = final_report s
  /\ asked_questions s' = asked_questions s
  /\ question_counter s' = question_counter s
  /\ (List.length (get (answers s') [])
      <= List.length (get (answers s) [])
         + (if Nat.leb 3 (tail_rank n) then 1 else 0))%nat.

(** A follow-up is due, and the last human message is one that earns
    another: what [generate_follow_up_question] finds when the candidate's
    mid-band answer is still the last human message. *)
Definition follow_up_pending (s : InterviewState) : Prop :=
  well_keyed n_generate_follow_up_question s
  /\ truthy (should_follow_up s) = true
  /\ truthy (interview_complete s) = false
  /\ follow_up_warranted
       (score_of (get (required_skills s) [])
                 (last_human_content (get (messages s) []))) = true.

(** A nine-word answer with two STAR sets and a skill: it scores 2.86. *)
Definition mid_answer : string :=
  "I built a Python service and the result improved".

(** The [__main__] settings with that answer already among the messages. *)
Definition eager_init : InterviewState :=
  set_messages [HumanMessage mid_answer] (main_init 5).

(** The state six nodes later: the first question was asked and scored, and
    the first follow-up is due. *)
Definition eager_state : InterviewState :=
  match run demo_bank 6 minute_clock n_parse_job_description eager_init with
  | Ok (_, s) => s
  | Raise _ => empty
  end.

(** [any(skill.lower() in lower for skill in skills)]. *)
Definition names_skill (skills : list string) (ans : string) : bool :=
  existsb (fun skill => PyStr.contains (PyStr.lower skill) (PyStr.lower ans))
          skills.

(** One rubric case is below another: no more keyword sets, no more
    relevance, no more words. *)
Definition case_le (a b : Z * bool * Z) : bool :=
  (fst (fst a) <=? fst (fst b)) && implb (snd (fst a)) (snd (fst b))
  && (snd a <=? snd b).

(** The rubric cases with their scores. *)
Definition rubric_table : list ((Z * bool * Z) * F64.float) :=
  map (fun c => (c, score_case (fst (fst c)) (snd (fst c)) (snd c)))
      rubric_cases.

(** On a table, the score never decreases from a case to one above it. *)
Definition monotone_on (table : list ((Z * bool * Z) * F64.float)) : bool :=
  forallb (fun a =>
             forallb (fun b => implb (case_le (fst a) (fst b))
                                     (F64.leb (snd a) (snd b)))
                     table)
          table.

(** Eighty words that touch the four STAR sets and name a skill. *)
Definition full_answer : string :=
  "situation task action result python a a a a a a a a a a a a a a a a a a a a a a a a a a a a a a a a a a a a a a a a a a a a a a a a a a a a a a a a a a a a a a a a a a a a a a a a a a a a".

(** *** [parse_job_description]: the seniority *)

(** The [seniority] that [parse_job_description] derives from the
    [job_description] text. *)
Definition seniority_of (jd : string) : string :=
  if PyStr.contains "senior" (PyStr.lower jd)
     || PyStr.contains "lead" (PyStr.lower jd)
  then "Senior"
  else if PyStr.contains "junior" (PyStr.lower jd)
          || PyStr.contains "entry" (PyStr.lower jd)
  then "Junior"
  else "Mid-level".

(** [w] occurs in [s]: [s] is [w] between two strings. *)
Definition occurs (w s : string) : Prop :=
  exists a b, s = (a ++ w ++ b)%string.

(** *** [print_transcript]: questions paired with answers *)

(** A Python [dict] with string keys, in insertion order: setting a key
    that is present replaces its value in place. *)
Fixpoint dict_set {V} (d : list (string * V)) (k : string) (v : V)
  : list (string * V) :=
  match d with
  | [] => [(k, v)]
  | (k', v') :: d' =>
      if String.eqb k' k then (k', v) :: d' else (k', v') :: dict_set d' k v
  end.

(** [d.get(k)]. *)
Fixpoint dict_get {V} (d : list (string * V)) (k : string) : option V :=
  match d with
  | [] => None
  | (k', v) :: d' => if String.eqb k' k then Some v else dict_get d' k
  end.

(** [{a['question_id']: a for a in answers}]. *)
Definition answers_by_id (answers : list AnswerRecord)
  : list (string * AnswerRecord) :=
  fold_left (fun d a => dict_set d (question_id a) a) answers [].

(** [enumerate(l)], from [i]. *)
Fixpoint enumerate_from {A} (i : Z) (l : list A) : list (Z * A) :=
  match l with
  | [] => []
  | x :: l' => (i, x) :: enumerate_from (i + 1) l'
  end.

(** One block of the transcript: the number after [QUESTION], the text of
    the question, and the answer record printed under it ([None] prints
    [No answer recorded.]). *)
Record TranscriptRow := {
  row_number : Z;
  row_question : string;
  row_answer : option AnswerRecord
}.

(** Section 4 of [print_transcript]. *)
Definition transcript_rows (final_state : InterviewState)
  : list TranscriptRow :=
  let questions := get (asked_questions final_state) [] in
  let answers := answers_by_id (get (answers final_state) []) in
  map (fun iq => {|
         row_number := fst iq + 1;
         row_question := q_text (snd iq);
         row_answer := dict_get answers (q_id (snd iq))
       |})
      (enumerate_from 0 questions).

(** The last record of [answers] that answers question [id]. *)
Definition last_answer_to (id : string) (answers : list AnswerRecord)
  : option AnswerRecord :=
  find (fun a => String.eqb (question_id a) id) (rev answers).

(** *** The report, in exact arithmetic *)

(** The numbers of the specification: the scores as the rationals they
    are, their arithmetic mean, and rounding to a number of decimals. *)
Module Exact.

Import QArith Qabs.







End Exact.













(** * Properties *)

(** ** Binary64: a quotient of at least one rounds to at least one *)

(** [digits2_pos] is the bit length [Pos.size]. *)
Lemma digits2_pos_size (p : positive) : digits2_pos p = Pos.size p.
Proof. induction p; simpl; congruence. Qed.

(** A positive [m] has [Zdigits2 m] bits. *)
Lemma Zdigits2_bounds (m : Z) :
  0 < m -> 2 ^ (Zdigits2 m - 1) <= m < 2 ^ Zdigits2 m /\ 0 < Zdigits2 m.
Proof.
  destruct m as [|p|p]; try lia. intros _. simpl Zdigits2.
  rewrite digits2_pos_size.
  pose proof (Pos.size_gt p) as Hgt. pose proof (Pos.size_le p) as Hle.
  assert (Hpow : forall q, Zpos (2 ^ q) = 2 ^ Zpos q).
  { intro q. now rewrite Pos2Z.inj_pow. }
  apply Pos2Z.pos_lt_pos in Hgt. rewrite Hpow in Hgt.
  apply Pos2Z.pos_le_pos in Hle. rewrite Hpow in Hle.
  replace (Zpos (Pos.size p)) with (Zpos (Pos.size p) - 1 + 1) in Hle at 1 by lia.
  rewrite Z.pow_add_r in Hle by lia. change (2 ^ 1) with 2 in Hle.
  change (Zpos p~0) with (2 * Zpos p) in Hle. lia.
Qed.

(** One right shift halves the mantissa. *)
Lemma shr_1_m (r : shr_record) : 0 <= shr_m r -> shr_m (shr_1 r) = shr_m r / 2.
Proof.
  destruct r as [m r s]. simpl. intros Hm.
  destruct m as [|[p|p|]|p]; simpl; try lia; try reflexivity.
  - change (Zpos p~1) with (2 * Zpos p + 1).
    apply Z.div_unique with 1; lia.
  - change (Zpos p~0) with (2 * Zpos p).
    apply Z.div_unique with 0; lia.
Qed.

Lemma pow2_xI (n : positive) : 2 ^ Zpos n~1 = 2 * (2 ^ Zpos n * 2 ^ Zpos n).
Proof.
  replace (Zpos n~1) with (1 + (Zpos n + Zpos n)) by lia.
  now rewrite !Z.pow_add_r by lia.
Qed.

Lemma pow2_xO (n : positive) : 2 ^ Zpos n~0 = 2 ^ Zpos n * 2 ^ Zpos n.
Proof.
  replace (Zpos n~0) with (Zpos n + Zpos n) by lia.
  now rewrite Z.pow_add_r by lia.
Qed.

(** [n] right shifts divide the mantissa by [2^n]. *)
Lemma iter_pos_shr_1_m (n : positive) : forall r : shr_record,
  0 <= shr_m r -> shr_m (iter_pos shr_1 n r) = shr_m r / 2 ^ Zpos n.
Proof.
  induction n as [n IH|n IH|]; intros r Hr; simpl iter_pos.
  - assert (H1 : 0 <= shr_m (shr_1 r)) by (rewrite shr_1_m by auto; apply Z.div_pos; lia).
    assert (H2 : 0 <= shr_m (iter_pos shr_1 n (shr_1 r))).
    { rewrite IH by auto. apply Z.div_pos; lia. }
    rewrite IH, IH, shr_1_m by auto.
    rewrite !Z.div_div by lia. now rewrite pow2_xI, Z.mul_assoc.
  - assert (H2 : 0 <= shr_m (iter_pos shr_1 n r)).
    { rewrite IH by auto. apply Z.div_pos; lia. }
    rewrite IH, IH by auto.
    rewrite Z.div_div by lia. now rewrite pow2_xO.
  - rewrite shr_1_m by auto. reflexivity.
Qed.

Lemma shr_record_of_loc_m (m : Z) (l : location) : shr_m (shr_record_of_loc m l) = m.
Proof. destruct l as [|[]]; reflexivity. Qed.

(** On a value of magnitude at least 1, [shr_fexp] leaves a mantissa of at
    most 53 bits alone and cuts a longer one to 53 bits. *)
Lemma shr_fexp_normal (m e : Z) (l : location) :
  0 < m -> 1 <= Zdigits2 m + e ->
  exists r e', shr_fexp 53 1024 m e l = (r, e') /\
    ((Zdigits2 m <= 53 /\ shr_m r = m /\ e' = e) \/
     (53 < Zdigits2 m /\ shr_m r = m / 2 ^ (Zdigits2 m - 53)
      /\ e' = e + (Zdigits2 m - 53))).
Proof.
  intros Hm Hd. unfold shr_fexp, fexp, emin.
  rewrite Z.max_l by lia.
  replace (Zdigits2 m + e - 53 - e) with (Zdigits2 m - 53) by lia.
  unfold shr. destruct (Zdigits2 m - 53) as [|n|n] eqn:Hn.
  - eexists _, _. split; [reflexivity|]. left. rewrite shr_record_of_loc_m. lia.
  - eexists _, _. split; [reflexivity|]. right.
    rewrite iter_pos_shr_1_m by (rewrite shr_record_of_loc_m; lia).
    rewrite shr_record_of_loc_m. lia.
  - eexists _, _. split; [reflexivity|]. left. rewrite shr_record_of_loc_m. lia.
Qed.

Lemma round_nearest_even_bounds (m : Z) (l : location) :
  m <= round_nearest_even m l <= m + 1.
Proof.
  unfold round_nearest_even. destruct l as [|[]]; try lia.
  destruct (Z.even m); lia.
Qed.

Lemma div_pow2_lower (m d k : Z) :
  0 <= k -> k < d -> 2 ^ (d - 1) <= m -> 2 ^ (d - 1 - k) <= m / 2 ^ k.
Proof.
  intros Hk Hd Hm. apply Z.div_le_lower_bound; [apply Z.pow_pos_nonneg; lia|].
  rewrite <- Z.pow_add_r by lia. replace (k + (d - 1 - k)) with (d - 1) by lia. exact Hm.
Qed.

(** A value [mx * 2^ex] of at least 1 rounds to a float that [min] with
    [1.0] maps to [1.0]: it is [1.0], larger, or the infinity. *)
Lemma binary_round_aux_ge_one (mx ex : Z) (lx : location) :
  0 < mx -> 2 ^ (- ex) <= mx ->
  F64.min (binary_round_aux 53 1024 false mx ex lx) one = one.
Proof.
  intros Hmx Hval.
  destruct (Zdigits2_bounds mx Hmx) as [[Hlo Hhi] Hdpos].
  assert (Hd : 1 <= Zdigits2 mx + ex).
  { destruct (Z.le_gt_cases 0 ex) as [|Hneg]; [lia|].
    assert (2 ^ (- ex) < 2 ^ Zdigits2 mx) as Hlt by lia.
    apply Z.pow_lt_mono_r_iff in Hlt; lia. }
  unfold binary_round_aux.
  destruct (shr_fexp_normal mx ex lx Hmx Hd) as (r1 & e1 & -> & H1).
  set (m2 := round_nearest_even (shr_m r1) (loc_of_shr_record r1)).
  pose proof (round_nearest_even_bounds (shr_m r1) (loc_of_shr_record r1)) as Hm2.
  fold m2 in Hm2.
  assert (Hinv : 0 < shr_m r1 /\ 1 <= Zdigits2 (shr_m r1) + e1 /\
                 - 52 <= e1 /\ (e1 = - 52 -> 2 ^ 52 <= shr_m r1)).
  { destruct H1 as [(Hle & -> & ->)|(Hgt & -> & ->)].
    - assert (- 52 <= ex).
      { destruct (Z.le_gt_cases (-52) ex) as [|Hneg]; [assumption|].
        assert (2 ^ 53 <= 2 ^ (- ex)) by (apply Z.pow_le_mono_r; lia).
        assert (2 ^ Zdigits2 mx <= 2 ^ 53) by (apply Z.pow_le_mono_r; lia). lia. }
      repeat split; try assumption. intros ->. exact Hval.
    - pose proof (div_pow2_lower mx (Zdigits2 mx) (Zdigits2 mx - 53)) as Hq.
      replace (Zdigits2 mx - 1 - (Zdigits2 mx - 53)) with 52 in Hq by lia.
      specialize (Hq ltac:(lia) ltac:(lia) Hlo).
      assert (0 < 2 ^ 52) by (apply Z.pow_pos_nonneg; lia).
      assert (Hq0 : 0 < mx / 2 ^ (Zdigits2 mx - 53)) by lia.
      destruct (Zdigits2_bounds _ Hq0) as [[_ Hhi'] Hdq].
      assert (52 < Zdigits2 (mx / 2 ^ (Zdigits2 mx - 53))).
      { apply (Z.pow_lt_mono_r_iff 2); lia. }
      repeat split; lia. }
  destruct Hinv as (Hr1 & Hd1 & He1 & Hm1).
  assert (Hm2pos : 0 < m2) by lia.
  assert (Hd2 : 1 <= Zdigits2 m2 + e1).
  { destruct (Zdigits2_bounds _ Hr1) as [[Hlo1 _] _].
    destruct (Zdigits2_bounds _ Hm2pos) as [[_ Hhi2] Hd2pos].
    assert (Zdigits2 (shr_m r1) - 1 < Zdigits2 m2).
    { apply (Z.pow_lt_mono_r_iff 2); lia. }
    lia. }
  destruct (shr_fexp_normal m2 e1 loc_Exact Hm2pos Hd2) as (r3 & e3 & -> & H3).
  assert (Hfin : 0 < shr_m r3 /\ - 52 <= e3 /\ (e3 = - 52 -> 2 ^ 52 <= shr_m r3)).
  { destruct (Zdigits2_bounds _ Hm2pos) as [[Hlo2 Hhi2] Hd2pos].
    destruct H3 as [(Hle & -> & ->)|(Hgt & -> & ->)].
    - repeat split; lia.
    - pose proof (div_pow2_lower m2 (Zdigits2 m2) (Zdigits2 m2 - 53)) as Hq.
      replace (Zdigits2 m2 - 1 - (Zdigits2 m2 - 53)) with 52 in Hq by lia.
      specialize (Hq ltac:(lia) ltac:(lia) Hlo2).
      assert (0 < 2 ^ 52) by (apply Z.pow_pos_nonneg; lia).
      repeat split; lia. }
  destruct Hfin as (Hpos3 & He3 & Hm3).
  destruct (shr_m r3) as [|m3|m3] eqn:Em3; try lia.
  unfold F64.min, F64.ltb, SFltb.
  destruct (e3 <=? 1024 - 53); [|reflexivity].
  unfold one, SFcompare. cbv beta iota.
  destruct (Z.compare_spec (-52) e3) as [E|E|E]; try lia; [|reflexivity].
  subst e3. specialize (Hm3 eq_refl).
  assert (Hc : Pos.compare_cont Eq 4503599627370496 m3 = (2 ^ 52 ?= Zpos m3)) by reflexivity.
  rewrite Hc. clear Hc.
  destruct (Z.compare_spec (2 ^ 52) (Zpos m3)) as [E|E|E].
  - injection E as <-. reflexivity.
  - reflexivity.
  - exfalso. apply (Z.lt_irrefl (Zpos m3)). eapply Z.lt_le_trans; eassumption.
Qed.

(** The quotient [p / 80] the division core hands to the rounding is at
    least 1 when [80 <= p]. *)
Lemma SFdiv_core_80 (p : positive) :
  80 <= Zpos p ->
  exists q e l, SFdiv_core_binary 53 1024 (Zpos p) 0 80 0 = (q, e, l)
                /\ 0 < q /\ 2 ^ (- e) <= q.
Proof.
  intros Hp.
  destruct (Zdigits2_bounds (Zpos p) eq_refl) as [[Hlo Hhi] Hdpos].
  assert (Hd : 7 <= Zdigits2 (Zpos p)).
  { assert (2 ^ 6 < 2 ^ Zdigits2 (Zpos p)) as Hlt
        by (change (2 ^ 6) with 64; lia).
    apply Z.pow_lt_mono_r_iff in Hlt; lia. }
  unfold SFdiv_core_binary.
  change (Zdigits2 80) with 7.
  set (d := Zdigits2 (Zpos p)) in *.
  unfold fexp, emin.
  rewrite (Z.max_l (d + 0 - (7 + 0) - 53)) by lia.
  change (0 - 0) with 0.
  destruct (Z.le_gt_cases 60 d) as [Hbig|Hsmall].
  - rewrite Z.min_r by lia. change (0 - 0) with 0. cbv beta iota zeta.
    destruct (Z.div_eucl (Zpos p) 80) as [q r] eqn:E.
    assert (Hq : q = Zpos p / 80) by (unfold Z.div; now rewrite E).
    eexists _, _, _. split; [reflexivity|].
    assert (1 <= Zpos p / 80) by (apply Z.div_le_lower_bound; lia).
    change (2 ^ (- 0)) with 1. lia.
  - rewrite Z.min_l by lia.
    replace (0 - (d + 0 - (7 + 0) - 53)) with (60 - d) by lia.
    destruct (60 - d) as [|s|s] eqn:Es; try lia.
    cbv beta iota zeta.
    destruct (Z.div_eucl (Z.shiftl (Zpos p) (Zpos s)) 80) as [q r] eqn:E.
    assert (Hq : q = Z.shiftl (Zpos p) (Zpos s) / 80) by (unfold Z.div; now rewrite E).
    eexists _, _, _. split; [reflexivity|].
    rewrite Z.shiftl_mul_pow2 in Hq by lia.
    replace (- (d + 0 - (7 + 0) - 53)) with (Zpos s) by lia.
    assert (0 < 2 ^ Zpos s) by (apply Z.pow_pos_nonneg; lia).
    assert (2 ^ Zpos s <= q).
    { subst q. apply Z.div_le_lower_bound; [lia|]. nia. }
    lia.
Qed.

Lemma lit_one : F64.lit 1 = one.
Proof. vm_compute. reflexivity. Qed.

(** From 80 words on, [detail] is [1.0]. *)
Lemma int_true_div_80_saturates (wc : Z) :
  80 <= wc -> F64.min (F64.int_true_div wc 80) (F64.lit 1) = F64.lit 1.
Proof.
  intros Hwc. destruct wc as [|p|p]; try lia.
  rewrite lit_one.
  unfold F64.int_true_div, F64.div, F64.raw_int, SFdiv, F64.prec, F64.emax.
  destruct (SFdiv_core_80 p Hwc) as (q & e & l & -> & Hq & Hval).
  apply binary_round_aux_ge_one; assumption.
Qed.

(** ** Binary64: comparisons and decimal rounding *)

(** No float is both below 3.0 and at least 4.2. *)
Lemma lt_3_not_ge_4_2 (x : F64.float) :
  F64.ltb x (F64.lit 3.0) = true -> F64.geb x (F64.lit 4.2) = false.
Proof.
  assert (E3 : F64.lit 3.0 = S754_finite false 6755399441055744 (-51))
    by (vm_compute; reflexivity).
  assert (E42 : F64.lit 4.2 = S754_finite false 4728779608739021 (-50))
    by (vm_compute; reflexivity).
  rewrite E3, E42. unfold F64.ltb, F64.geb, SFltb, SFleb, SFcompare.
  destruct x as [s|s| |s m e]; try destruct s; try discriminate; try reflexivity.
  destruct (Z.compare_spec e (-51)) as [E|E|E];
    destruct (Z.compare_spec (-50) e) as [E'|E'|E']; try lia; try discriminate;
    reflexivity.
Qed.

(** [div_half_even a b] is an integer nearest to [a / b]. *)
Lemma div_half_even_nearest (a b : Z) :
  0 < b -> Z.abs (2 * (a - b * F64.div_half_even a b)) <= b.
Proof.
  intros Hb. unfold F64.div_half_even.
  pose proof (Z.div_mod a b ltac:(lia)) as Hdm.
  pose proof (Z.mod_pos_bound a b Hb) as Hr.
  destruct (Z.compare_spec (2 * (a mod b)) b) as [E|E|E].
  - destruct (Z.even (a / b)); lia.
  - lia.
  - lia.
Qed.

(** The decimal formats print an integer nearest to the scaled value: for a
    negative exponent [e], [scaled m e nd] is within one half of
    [m * 10^nd / 2^(-e)]. *)
Lemma scaled_nearest (m : positive) (e nd : Z) :
  e < 0 ->
  Z.abs (2 * (Zpos m * 10 ^ nd - 2 ^ (- e) * F64.scaled m e nd)) <= 2 ^ (- e).
Proof.
  intros He. unfold F64.scaled.
  destruct (Z.leb_spec 0 e) as [H|_]; [lia|].
  apply div_half_even_nearest. apply Z.pow_pos_nonneg; lia.
Qed.

(** ** The rubric *)

(** Every score of the 810 cases up to 80 words passes the check. *)
Lemma rubric_cases_ok :
  forallb (fun c => rubric_ok (score_case (fst (fst c)) (snd (fst c)) (snd c)))
          rubric_cases = true.
Proof. vm_compute. reflexivity. Qed.

Lemma In_upto (n : nat) (z : Z) : 0 <= z < Z.of_nat n -> In z (upto n).
Proof.
  intros H. unfold upto. apply in_map_iff. exists (Z.to_nat z). split; [lia|].
  apply in_seq. lia.
Qed.

Lemma In_rubric_cases k r wc :
  0 <= k <= 4 -> 0 <= wc <= 80 -> In (k, r, wc) rubric_cases.
Proof.
  intros Hk Hwc. unfold rubric_cases.
  apply in_flat_map. exists k. split; [apply In_upto; lia|].
  apply in_flat_map. exists r. split; [destruct r; simpl; auto|].
  apply in_map. apply In_upto. lia.
Qed.

Lemma score_case_saturates k r wc : 80 <= wc -> score_case k r wc = score_case k r 80.
Proof.
  intros H. unfold score_case.
  rewrite (int_true_div_80_saturates wc H), (int_true_div_80_saturates 80) by lia.
  reflexivity.
Qed.

(** So does every score: more than 80 words score as 80 do. *)
Lemma score_case_ok k r wc : 0 <= k <= 4 -> 0 <= wc -> rubric_ok (score_case k r wc) = true.
Proof.
  intros Hk Hwc.
  assert (Hsmall : forall wc', 0 <= wc' <= 80 -> rubric_ok (score_case k r wc') = true).
  { intros wc' Hwc'.
    exact (proj1 (forallb_forall _ _) rubric_cases_ok (k, r, wc')
                 (In_rubric_cases k r wc' Hk Hwc')). }
  destruct (Z.le_gt_cases 80 wc).
  - rewrite score_case_saturates by assumption. apply Hsmall. lia.
  - apply Hsmall. lia.
Qed.

Lemma count_words_nonneg s : forall b, 0 <= PyStr.count_words b s.
Proof.
  induction s as [|c s IH]; intros b; simpl; [lia|].
  destruct (PyStr.is_space c); [apply IH|]. specialize (IH true). destruct b; lia.
Qed.

Lemma star_sum_range st : 0 <= star_sum st <= 4.
Proof. destruct st as [[] [] [] []]; unfold star_sum; simpl; lia. Qed.

Lemma star_sum_matched lower : star_sum (star_of lower) = matched_sets lower.
Proof.
  unfold star_sum, star_of, matched_sets, filter. cbv beta iota.
  cbn [star_S star_T star_A star_R].
  destruct (PyStr.any_in STAR_S lower), (PyStr.any_in STAR_T lower),
    (PyStr.any_in STAR_A lower), (PyStr.any_in STAR_R lower); reflexivity.
Qed.

(** The score depends on the answer through three numbers only. *)
Lemma score_of_case skills ans :
  score_of skills ans =
  score_case (star_sum (star_of (PyStr.lower ans)))
    (existsb (fun skill => PyStr.contains (PyStr.lower skill) (PyStr.lower ans)) skills)
    (PyStr.word_count ans).
Proof.
  unfold score_of, score_case, star_score_of, rel_of, detail_of.
  destruct (existsb _ skills); reflexivity.
Qed.

Lemma score_of_ok skills ans : rubric_ok (score_of skills ans) = true.
Proof.
  rewrite score_of_case. apply score_case_ok.
  - apply star_sum_range.
  - apply count_words_nonneg.
Qed.

(** On a checked score the ladder of [conf_of] is the three bands. *)
Lemma conf_of_bands (sc : F64.float) :
  rubric_ok sc = true ->
  F64.leb (F64.lit 0.0) sc = true /\ F64.leb sc (F64.lit 5.0) = true
  /\ (conf_of sc = Confidence.high <-> F64.geb sc (F64.lit 4.0) = true)
  /\ (conf_of sc = Confidence.medium <->
      F64.leb (F64.lit 2.8) sc = true /\ F64.ltb sc (F64.lit 4.0) = true)
  /\ (conf_of sc = Confidence.low <-> F64.ltb sc (F64.lit 2.8) = true).
Proof.
  unfold rubric_ok, conf_of, F64.geb, F64.leb.
  rewrite !andb_true_iff. intros [[[[H0 H5] H4] H28] Himp].
  split; [exact H0|]. split; [exact H5|].
  destruct (SFleb (F64.lit 4.0) sc), (SFleb (F64.lit 2.8) sc),
    (F64.ltb sc (F64.lit 4.0)), (F64.ltb sc (F64.lit 2.8));
    try discriminate H4; try discriminate H28; try discriminate Himp;
    repeat split; intros; try discriminate; try reflexivity;
    try (destruct H; discriminate).
Qed.

(** The empty answer scores 0.75: no STAR set, relevance 0.5, no word. *)
Example score_of_empty_answer : score_of ["Python"] "" = F64.lit 0.75.
Proof. vm_compute. reflexivity. Qed.

(** [star_answer] scores 4.21: four STAR sets, a skill, 17 words. *)
Example score_of_star_answer : score_of ["Python"] star_answer = F64.lit 4.21.
Proof. vm_compute. reflexivity. Qed.

(** ** What [evaluate_answer] returns *)

Lemma apply_update_empty (s : InterviewState) : apply_update empty s = s.
Proof. destruct s; reflexivity. Qed.

(** With its keys present and a question awaiting its answer,
    [evaluate_answer] returns [evaluation]. *)
Lemma evaluate_answer_runs now state q msgs start old d :
  awaiting_answer state = Some true ->
  current_question state = Some (Some q) ->
  messages state = Some msgs ->
  start_time state = Some start ->
  answers state = Some old ->
  difficulty state = Some d ->
  evaluate_answer now state
  = Ok (evaluation old (answer_record now state q msgs start) d).
Proof.
  intros Ha Hq Hm Hs Ho Hd. unfold evaluate_answer.
  rewrite Ha, Hq, Hm, Hs, Ho, Hd.
  cbn [truthy get negb bind item].
  unfold evaluation, answer_record. cbv zeta. cbn [score].
  reflexivity.
Qed.

(** The six arms of the difficulty block. *)
Ltac adjust_difficulty_cases :=
  match goal with
  | |- context [adjust_difficulty ?d ?sc _] =>
      unfold adjust_difficulty;
      destruct (F64.geb sc (F64.lit 4.2)), (F64.ltb sc (F64.lit 3.0)), d;
      reflexivity
  end.

Lemma adjust_difficulty_answers d sc u :
  answers (adjust_difficulty d sc u) = answers u.
Proof. adjust_difficulty_cases. Qed.

Lemma adjust_difficulty_should_follow_up d sc u :
  should_follow_up (adjust_difficulty d sc u) = should_follow_up u.
Proof. adjust_difficulty_cases. Qed.

Lemma adjust_difficulty_next d sc u s :
  difficulty u = None -> difficulty s = Some d ->
  difficulty (apply_update (adjust_difficulty d sc u) s)
  = Some (nextDifficulty d sc).
Proof.
  intros Hu Hs. unfold adjust_difficulty, nextDifficulty.
  destruct (F64.geb sc (F64.lit 4.2)), (F64.ltb sc (F64.lit 3.0)), d; simpl; rewrite ?Hu, ?Hs; reflexivity.
Qed.

Lemma evaluation_answers old rec d :
  answers (evaluation old rec d) = Some (old ++ [rec]).
Proof.
  unfold evaluation. cbv zeta.
  destruct (follow_up_warranted (score rec)); cbn [answers set_should_follow_up];
    rewrite adjust_difficulty_answers; reflexivity.
Qed.

Lemma adjust_difficulty_current_question d sc u :
  current_question (adjust_difficulty d sc u) = current_question u.
Proof. adjust_difficulty_cases. Qed.

Lemma evaluation_current_question old rec d :
  current_question (evaluation old rec d) = None.
Proof.
  unfold evaluation. cbv zeta.
  destruct (follow_up_warranted (score rec));
    cbn [current_question set_should_follow_up];
    rewrite adjust_difficulty_current_question; reflexivity.
Qed.

Lemma evaluation_should_follow_up old rec d :
  should_follow_up (evaluation old rec d)
  = Some (follow_up_warranted (score rec)).
Proof.
  unfold evaluation. cbv zeta.
  destruct (follow_up_warranted (score rec));
    cbn [should_follow_up set_should_follow_up]; [reflexivity|].
  rewrite adjust_difficulty_should_follow_up. reflexivity.
Qed.

Lemma evaluation_difficulty old rec d s :
  difficulty s = Some d ->
  difficulty (apply_update (evaluation old rec d) s)
  = Some (nextDifficulty d (score rec)).
Proof.
  intros Hs. unfold evaluation. cbv zeta.
  destruct (follow_up_warranted (score rec)).
  - rewrite <- (adjust_difficulty_next d (score rec)
                 (set_answers (old ++ [rec])
                    (set_awaiting_answer false
                       (set_should_follow_up false empty))) s eq_refl Hs).
    reflexivity.
  - now apply adjust_difficulty_next.
Qed.

(** The difficulty [evaluate_answer] leaves is [nextDifficulty] of the
    difficulty it found and the score it recorded. *)
Lemma evaluate_answer_adjusts now state q msgs start old d :
  awaiting_answer state = Some true ->
  current_question state = Some (Some q) ->
  messages state = Some msgs ->
  start_time state = Some start ->
  answers state = Some old ->
  difficulty state = Some d ->
  exists u,
    evaluate_answer now state = Ok u
    /\ difficulty (apply_update u state)
       = Some (nextDifficulty d (score (answer_record now state q msgs start))).
Proof.
  intros Ha Hq Hm Hs Ho Hd.
  exists (evaluation old (answer_record now state q msgs start) d).
  split; [now apply evaluate_answer_runs|now apply evaluation_difficulty].
Qed.

(** C1. Once a question awaits its answer and the keys it reads are present,
    [evaluate_answer] returns an update that appends one record: its score is
    [round((starScore*0.5 + relevance*0.3 + detail*0.2) * 5, 2)], with
    [starScore] the fraction of the four STAR keyword sets found in the
    lower-cased answer, [relevance] 1.0 when a required skill is a
    case-insensitive substring of the answer and 0.5 otherwise, and [detail]
    [min(wordCount/80, 1.0)]; the score lies in [0, 5]; the confidence is
    high exactly when [score >= 4.0], medium exactly when
    [2.8 <= score < 4.0], and low exactly when [score < 2.8]. *)
Theorem evaluate_answer_rubric now state q msgs start old d :
  awaiting_answer state = Some true ->
  current_question state = Some (Some q) ->
  messages state = Some msgs ->
  start_time state = Some start ->
  answers state = Some old ->
  difficulty state = Some d ->
  let ans := last_human_content msgs in
  let lower := PyStr.lower ans in
  let starScore := F64.int_true_div (matched_sets lower) 4 in
  let relevance :=
    if existsb (fun skill => PyStr.contains (PyStr.lower skill) lower)
               (get (required_skills state) [])
    then F64.lit 1.0 else F64.lit 0.5 in
  let detail :=
    F64.min (F64.int_true_div (PyStr.word_count ans) 80) (F64.lit 1.0) in
  exists u rec,
    evaluate_answer now state = Ok u
    /\ answers u = Some (old ++ [rec])
    /\ user_answer rec = ans
    /\ score rec
       = F64.round
           (F64.mul
              (F64.add (F64.add (F64.mul starScore (F64.lit 0.5))
                                (F64.mul relevance (F64.lit 0.3)))
                       (F64.mul detail (F64.lit 0.2)))
              (F64.of_int 5))
           2
    /\ F64.leb (F64.lit 0.0) (score rec) = true
    /\ F64.leb (score rec) (F64.lit 5.0) = true
    /\ (confidence rec = Confidence.high
        <-> F64.geb (score rec) (F64.lit 4.0) = true)
    /\ (confidence rec = Confidence.medium
        <-> F64.leb (F64.lit 2.8) (score rec) = true
            /\ F64.ltb (score rec) (F64.lit 4.0) = true)
    /\ (confidence rec = Confidence.low
        <-> F64.ltb (score rec) (F64.lit 2.8) = true).
Proof.
  intros Ha Hq Hm Hs Ho Hd ans lower starScore relevance detail.
  exists (evaluation old (answer_record now state q msgs start) d),
         (answer_record now state q msgs start).
  split; [now apply evaluate_answer_runs|].
  split; [apply evaluation_answers|].
  unfold answer_record. cbv zeta. cbn [user_answer score confidence].
  fold ans. split; [reflexivity|].
  pose proof (score_of_ok (get (required_skills state) []) ans) as Hok.
  assert (Hsc : score_of (get (required_skills state) []) ans
                = F64.round
           (F64.mul
              (F64.add (F64.add (F64.mul starScore (F64.lit 0.5))
                                (F64.mul relevance (F64.lit 0.3)))
                       (F64.mul detail (F64.lit 0.2)))
              (F64.of_int 5))
           2).
  { unfold score_of, weighted, star_score_of, rel_of, detail_of.
    cbv zeta. rewrite star_sum_matched. reflexivity. }
  rewrite <- Hsc.
  generalize dependent (score_of (get (required_skills state) []) ans).
  intros sc Hok _. split; [reflexivity|]. now apply conf_of_bands.
Qed.

(** [evaluate_answer_rubric] on the session [answering], evaluated at 160 s. *)
Lemma evaluate_answer_rubric_witness :
  awaiting_answer answering = Some true
  /\ current_question answering = Some (Some python_question)
  /\ exists u rec,
       evaluate_answer (F64.of_int 160) answering = Ok u
       /\ answers u = Some ([] ++ [rec])
       /\ user_answer rec = star_answer
       /\ F64.leb (F64.lit 0.0) (score rec) = true
       /\ F64.leb (score rec) (F64.lit 5.0) = true.
Proof.
  split; [reflexivity|]. split; [reflexivity|].
  destruct (evaluate_answer_rubric (F64.of_int 160) answering python_question
              _ (F64.of_int 100) [] medium
              eq_refl eq_refl eq_refl eq_refl eq_refl eq_refl)
    as (u & rec & Hu & Ha & Hans & _ & H0 & H5 & _).
  exists u, rec. repeat split; assumption.
Defined.

(** C9. When [awaiting_answer] is false or absent, or when [current_question]
    holds [None], [evaluate_answer] raises nothing and returns the empty
    update, and merging that update leaves every key of the state as it
    was. *)
Theorem evaluate_answer_guard now state :
  truthy (awaiting_answer state) = false \/ current_question state = Some None ->
  evaluate_answer now state = Ok empty /\ apply_update empty state = state.
Proof.
  intros H. split; [|apply apply_update_empty].
  unfold evaluate_answer. destruct H as [H|H].
  - rewrite H. reflexivity.
  - rewrite H. destruct (truthy (awaiting_answer state)); reflexivity.
Qed.

(** [evaluate_answer_guard] on [prepared], where no question was posed yet. *)
Lemma evaluate_answer_guard_witness :
  truthy (awaiting_answer prepared) = false
  /\ evaluate_answer (F64.of_int 160) prepared = Ok empty
  /\ apply_update empty prepared = prepared.
Proof.
  split; [reflexivity|].
  exact (evaluate_answer_guard (F64.of_int 160) prepared (or_introl eq_refl)).
Defined.

(** ** Difficulty and follow-up policies *)

(** C4. For every current difficulty [d] and every score, the difficulty
    after the adjustment block is [nextDifficulty d score]: at [score >= 4.2]
    easy becomes medium, medium becomes hard and hard stays; at [score < 3.0]
    hard becomes medium, medium becomes easy and easy stays; any other score
    leaves it unchanged; and the tier moves by at most one position. *)
Theorem difficulty_moves_one_step d sc u s :
  difficulty u = None ->
  difficulty s = Some d ->
  exists d',
    difficulty (apply_update (adjust_difficulty d sc u) s) = Some d'
    /\ d' = nextDifficulty d sc
    /\ Z.abs (rank d' - rank d) <= 1
    /\ (F64.geb sc (F64.lit 4.2) = true ->
        d' = match d with easy => medium | medium => hard | hard => hard end)
    /\ (F64.ltb sc (F64.lit 3.0) = true ->
        d' = match d with hard => medium | medium => easy | easy => easy end)
    /\ (F64.geb sc (F64.lit 4.2) = false -> F64.ltb sc (F64.lit 3.0) = false ->
        d' = d).
Proof.
  intros Hu Hs. exists (nextDifficulty d sc).
  split; [now apply adjust_difficulty_next|]. split; [reflexivity|].
  pose proof (lt_3_not_ge_4_2 sc) as Hex.
  unfold nextDifficulty.
  destruct (F64.geb sc (F64.lit 4.2)), (F64.ltb sc (F64.lit 3.0));
    try (specialize (Hex eq_refl); discriminate Hex);
    destruct d; cbn [rank]; repeat split; intros; try discriminate;
    try reflexivity; lia.
Qed.

(** [difficulty_moves_one_step] on [answering], for the score 4.5. *)
Lemma difficulty_moves_one_step_witness :
  difficulty empty = None
  /\ difficulty answering = Some medium
  /\ exists d',
       difficulty (apply_update (adjust_difficulty medium (F64.lit 4.5) empty)
                                answering) = Some d'
       /\ Z.abs (rank d' - rank medium) <= 1.
Proof.
  split; [reflexivity|]. split; [reflexivity|].
  destruct (difficulty_moves_one_step medium (F64.lit 4.5) empty answering
              eq_refl eq_refl) as (d' & Hd & _ & Hr & _).
  exists d'. split; assumption.
Defined.

(** With the flag set and its keys present, [generate_follow_up_question]
    returns this update. *)
Lemma generate_follow_up_runs now state prev msgs asked counter :
  should_follow_up state = Some true ->
  current_question state = Some (Some prev) ->
  messages state = Some msgs ->
  asked_questions state = Some asked ->
  question_counter state = Some counter ->
  generate_follow_up_question now state
  = Ok (let fq := followup_of prev (last_human_content msgs) in
        set_current_question (Some fq)
        (set_start_time now
        (set_question_counter (counter + 1)
        (set_asked_questions (asked ++ [fq])
        (set_awaiting_answer true
        (set_messages (msgs ++ [AIMessage ("Follow-up: " ++ q_text fq)%string])
        (set_should_follow_up false empty))))))).
Proof.
  intros Hf Hq Hm Ha Hc. unfold generate_follow_up_question.
  rewrite Hf, Hq, Hm, Ha, Hc. reflexivity.
Qed.

(** C5. First, after an evaluated answer [should_follow_up] is true exactly
    when [2.8 <= score < 4.2], and false otherwise; the record is for the
    current question, which stays the current question. Second, when the flag
    is set [generate_follow_up_question] poses a question whose id is
    [followup_<parentId>], whose type, difficulty and topic are those of the
    question just answered, and whose text is built from the first 20
    characters of the last answer and the fixed prompt; its update resets
    the flag to false. Third, when the flag is not set the node returns the
    empty update, so the flag is only written in the step that poses the
    follow-up. *)
Theorem follow_up_policy :
  (forall now state q msgs start old d,
      awaiting_answer state = Some true ->
      current_question state = Some (Some q) ->
      messages state = Some msgs ->
      start_time state = Some start ->
      answers state = Some old ->
      difficulty state = Some d ->
      exists u rec,
        evaluate_answer now state = Ok u
        /\ answers u = Some (old ++ [rec])
        /\ question_id rec = q_id q
        /\ current_question (apply_update u state) = Some (Some q)
        /\ (should_follow_up (apply_update u state) = Some true
            <-> F64.leb (F64.lit 2.8) (score rec) = true
                /\ F64.ltb (score rec) (F64.lit 4.2) = true)
        /\ (should_follow_up (apply_update u state) = Some false
            <-> ~ (F64.leb (F64.lit 2.8) (score rec) = true
                   /\ F64.ltb (score rec) (F64.lit 4.2) = true)))
  /\ (forall now state prev msgs asked counter,
      should_follow_up state = Some true ->
      current_question state = Some (Some prev) ->
      messages state = Some msgs ->
      asked_questions state = Some asked ->
      question_counter state = Some counter ->
      exists u fq,
        generate_follow_up_question now state = Ok u
        /\ current_question (apply_update u state) = Some (Some fq)
        /\ q_id fq = ("followup_" ++ q_id prev)%string
        /\ q_type fq = q_type prev
        /\ q_difficulty fq = q_difficulty prev
        /\ q_topic fq = q_topic prev
        /\ q_text fq
           = ("That's an interesting point about '"
              ++ PyStr.take 20 (last_human_content msgs)
              ++ "...'. Can you elaborate on the challenges you faced?")%string
        /\ should_follow_up u = Some false
        /\ should_follow_up (apply_update u state) = Some false)
  /\ (forall now state,
      truthy (should_follow_up state) = false ->
      generate_follow_up_question now state = Ok empty).
Proof.
  split; [|split].
  - intros now state q msgs start old d Ha Hq Hm Hs Ho Hd.
    exists (evaluation old (answer_record now state q msgs start) d),
           (answer_record now state q msgs start).
    split; [now apply evaluate_answer_runs|].
    split; [apply evaluation_answers|].
    split; [reflexivity|].
    split.
    { cbn [apply_update current_question].
      rewrite evaluation_current_question, Hq. reflexivity. }
    assert (E : should_follow_up
                  (apply_update
                     (evaluation old (answer_record now state q msgs start) d)
                     state)
                = Some (follow_up_warranted
                          (score (answer_record now state q msgs start)))).
    { cbn [apply_update should_follow_up].
      rewrite evaluation_should_follow_up. reflexivity. }
    rewrite E. unfold follow_up_warranted.
    generalize (score (answer_record now state q msgs start)). intros sc.
    rewrite <- andb_true_iff.
    destruct (F64.leb (F64.lit 2.8) sc && F64.ltb sc (F64.lit 4.2));
      split; split; intros; try discriminate; try reflexivity; tauto.
  - intros now state prev msgs asked counter Hf Hq Hm Ha Hc.
    eexists _, (followup_of prev (last_human_content msgs)).
    split; [exact (generate_follow_up_runs now state prev msgs asked counter
                     Hf Hq Hm Ha Hc)|].
    cbv zeta. repeat split.
  - intros now state H. unfold generate_follow_up_question. now rewrite H.
Qed.

(** The second part of [follow_up_policy] on the session [probing]. *)
Lemma follow_up_policy_witness :
  should_follow_up probing = Some true
  /\ current_question probing = Some (Some python_question)
  /\ exists u fq,
       generate_follow_up_question (F64.of_int 220) probing = Ok u
       /\ current_question (apply_update u probing) = Some (Some fq)
       /\ q_id fq = "followup_q1"
       /\ should_follow_up (apply_update u probing) = Some false.
Proof.
  split; [reflexivity|]. split; [reflexivity|].
  destruct (proj1 (proj2 follow_up_policy) (F64.of_int 220) probing
              python_question _ _ _ eq_refl eq_refl eq_refl eq_refl eq_refl)
    as (u & fq & Hu & Hq & Hid & _ & _ & _ & _ & _ & Hf).
  exists u, fq. repeat split; assumption.
Defined.

(** ** The question quota *)

(** Below the quota and with a question selected, [generate_question]
    appends it and adds one to the counter. *)
Lemma generate_question_runs bank now state q asked counter :
  question_counter state = Some counter ->
  counter < get (max_questions state) 5 ->
  _select_question bank state = Some q ->
  asked_questions state = Some asked ->
  exists v,
    generate_question bank now state = Ok v
    /\ asked_questions (apply_update v state) = Some (asked ++ [q])
    /\ question_counter (apply_update v state) = Some (counter + 1)
    /\ current_question (apply_update v state) = Some (Some q).
Proof.
  intros Hc Hlt Hsel Ha. unfold generate_question.
  rewrite Hc, Hsel, Ha. cbn [get bind item].
  destruct (Z.geb_spec counter (get (max_questions state) 5)) as [Hge|_]; [lia|].
  eexists. split; [reflexivity|].
  destruct (q_type q); repeat split.
Qed.

(** At the quota [generate_question] poses nothing. *)
Lemma generate_question_quota bank now state :
  get (question_counter state) 0 >= get (max_questions state) 5 ->
  generate_question bank now state = Ok (set_current_question None empty).
Proof.
  intros H. unfold generate_question.
  destruct (Z.geb_spec (get (question_counter state) 0)
                       (get (max_questions state) 5)); [reflexivity|lia].
Qed.

(** At the quota [controller] ends the questioning. *)
Lemma controller_quota state :
  truthy (interview_complete state) = false ->
  get (should_follow_up state) false = false ->
  get (question_counter state) 0 >= get (max_questions state) 5 ->
  controller state = n_generate_final_report.
Proof.
  intros Hc Hf Hq. unfold controller. rewrite Hc, Hf.
  destruct (F64.geb_int _ _); [reflexivity|].
  destruct (Z.geb_spec (get (question_counter state) 0)
                       (get (max_questions state) 5)); [reflexivity|lia].
Qed.

(** Reads [max_questions] and [question_counter] off a state merged with
    the update of a follow-up. *)
Ltac follow_up_keys :=
  cbn [apply_update max_questions question_counter
       set_current_question set_start_time set_question_counter
       set_asked_questions set_awaiting_answer set_messages
       set_should_follow_up empty or_else get].

(** C10. A follow-up question is appended to [asked_questions] and adds one
    to [question_counter], as [generate_question] does for a bank question, so
    [quota_left] drops by one; [controller] routes to [generate_final_report]
    once [question_counter >= max_questions] (no follow-up pending, interview
    not complete), and after a follow-up that meets the quota
    [generate_question] poses no bank question. *)
Theorem follow_up_consumes_quota bank now state prev msgs asked counter :
  should_follow_up state = Some true ->
  current_question state = Some (Some prev) ->
  messages state = Some msgs ->
  asked_questions state = Some asked ->
  question_counter state = Some counter ->
  exists u,
    generate_follow_up_question now state = Ok u
    /\ asked_questions (apply_update u state)
       = Some (asked ++ [followup_of prev (last_human_content msgs)])
    /\ question_counter (apply_update u state) = Some (counter + 1)
    /\ quota_left (apply_update u state) = quota_left state - 1
    /\ (forall q now',
          counter < get (max_questions state) 5 ->
          _select_question bank state = Some q ->
          exists v,
            generate_question bank now' state = Ok v
            /\ asked_questions (apply_update v state) = Some (asked ++ [q])
            /\ question_counter (apply_update v state) = Some (counter + 1))
    /\ (forall s,
          truthy (interview_complete s) = false ->
          get (should_follow_up s) false = false ->
          get (question_counter s) 0 >= get (max_questions s) 5 ->
          controller s = n_generate_final_report)
    /\ (counter + 1 >= get (max_questions state) 5 ->
        forall now',
          generate_question bank now' (apply_update u state)
          = Ok (set_current_question None empty)).
Proof.
  intros Hf Hq Hm Ha Hc.
  eexists. split;
    [exact (generate_follow_up_runs now state prev msgs asked counter
              Hf Hq Hm Ha Hc)|].
  cbv zeta. split; [reflexivity|]. split; [reflexivity|].
  split.
  { unfold quota_left. follow_up_keys.
    rewrite Hc. cbn [get]. lia. }
  split.
  { intros q now' Hlt Hsel.
    destruct (generate_question_runs bank now' state q asked counter
                Hc Hlt Hsel Ha) as (v & Hv & Hva & Hvc & _).
    exists v. auto. }
  split; [exact controller_quota|].
  intros Hge now'. apply generate_question_quota.
  follow_up_keys. exact Hge.
Qed.

(** [follow_up_consumes_quota] on the session [probing]. *)
Lemma follow_up_consumes_quota_witness :
  should_follow_up probing = Some true
  /\ question_counter probing = Some 1
  /\ exists u,
       generate_follow_up_question (F64.of_int 220) probing = Ok u
       /\ question_counter (apply_update u probing) = Some (1 + 1)
       /\ quota_left (apply_update u probing) = quota_left probing - 1.
Proof.
  split; [reflexivity|]. split; [reflexivity|].
  destruct (follow_up_consumes_quota [python_question] (F64.of_int 220) probing
              python_question _ _ 1 eq_refl eq_refl eq_refl eq_refl eq_refl)
    as (u & Hu & _ & Hc & Hq & _).
  exists u. repeat split; assumption.
Defined.

(** ** Question selection *)

Lemma mem_In (x : string) (l : list string) : mem x l = true <-> In x l.
Proof.
  unfold mem. rewrite existsb_exists. split.
  - intros (y & Hy & E). apply String.eqb_eq in E. now subst.
  - intros H. exists x. split; [assumption|apply String.eqb_refl].
Qed.

Lemma Difficulty_eqb_eq (a b : Difficulty) : Difficulty_eqb a b = true <-> a = b.
Proof. destruct a, b; simpl; split; congruence. Qed.

(** The head of [filter f l] is the first element of [l] that passes [f]. *)
Lemma filter_first {A} (f : A -> bool) (l : list A) :
  match filter f l with
  | [] => forall x, In x l -> f x = false
  | q :: _ => exists before after,
      l = before ++ q :: after /\ f q = true /\ forall x, In x before -> f x = false
  end.
Proof.
  induction l as [|a l IH]; simpl.
  - intros x [].
  - destruct (f a) eqn:Fa.
    + exists [], l. repeat split; auto. intros x [].
    + destruct (filter f l) as [|q rest].
      * intros x [<-|Hx]; auto.
      * destruct IH as (before & after & -> & Fq & Hb).
        exists (a :: before), after. repeat split; auto.
        intros x [<-|Hx]; auto.
Qed.

Lemma unused_reflect state q :
  negb (mem (q_id q) (map q_id (get (asked_questions state) []))) = true
  <-> unused state q.
Proof.
  unfold unused, asked_ids. rewrite negb_true_iff, <- not_true_iff_false.
  now rewrite mem_In.
Qed.

Lemma eligible_reflect state q :
  existsb (Difficulty_eqb (q_difficulty q)) [get (difficulty state) medium; medium]
  && negb (mem (q_id q) (map q_id (get (asked_questions state) []))) = true
  <-> eligible state q.
Proof.
  unfold eligible. rewrite andb_true_iff, unused_reflect. simpl existsb.
  rewrite orb_false_r, orb_true_iff, !Difficulty_eqb_eq. tauto.
Qed.

Lemma reflect_false {b : bool} {P : Prop} : (b = true <-> P) -> b = false -> ~ P.
Proof. intros H E HP. apply H in HP. congruence. Qed.

(** C6. [_select_question] is a function of the bank and the state. When it
    returns a question, that question is the first entry of the bank that is
    unused and of the current or of medium difficulty, or, no entry being so,
    the first unused entry of any difficulty; it is in the bank and its id is
    not among the ids of [asked_questions]. When it returns [None], every
    entry of the bank has been asked. *)
Theorem select_question_first_match (bank : list QuestionRecord)
    (state : InterviewState) :
  match _select_question bank state with
  | Some q =>
      (first_in (eligible state) bank q
       \/ ((forall x, In x bank -> ~ eligible state x)
           /\ first_in (unused state) bank q))
      /\ In q bank
      /\ ~ In (q_id q) (asked_ids state)
  | None => forall x, In x bank -> In (q_id x) (asked_ids state)
  end.
Proof.
  unfold _select_question.
  set (f1 := fun q => _ && _).
  set (f2 := fun q => negb _).
  pose proof (filter_first f1 bank) as H1.
  pose proof (filter_first f2 bank) as H2.
  destruct (filter f1 bank) as [|q rest].
  - destruct (filter f2 bank) as [|q rest].
    + intros x Hx. specialize (H2 x Hx). unfold f2 in H2.
      apply negb_false_iff, mem_In in H2. exact H2.
    + destruct H2 as (before & after & -> & Fq & Hb).
      assert (Uq : unused state q) by (now apply unused_reflect).
      split; [right; split|split].
      * intros x Hx. exact (reflect_false (eligible_reflect state x) (H1 x Hx)).
      * exists before, after. repeat split; auto.
        intros x Hx. exact (reflect_false (unused_reflect state x) (Hb x Hx)).
      * apply in_or_app. right. now left.
      * exact Uq.
  - destruct H1 as (before & after & -> & Fq & Hb).
    assert (Eq : eligible state q) by (now apply eligible_reflect).
    split; [left|split].
    + exists before, after. repeat split; auto; try apply Eq.
      intros x Hx. exact (reflect_false (eligible_reflect state x) (Hb x Hx)).
    + apply in_or_app. right. now left.
    + apply Eq.
Qed.

(** ** The final report *)


(** ** Runs of the graph *)

Lemma run_S bank k clock n state :
  run bank (S k) clock n state
  = (c <- step bank (clock O) n state ;;
     run bank k (fun i => clock (S i)) (fst c) (snd c)).
Proof. reflexivity. Qed.

(** A run of [a + b] steps is a run of [a] steps followed by one of [b]. *)
Lemma run_add bank a : forall b clock n state,
  run bank (a + b) clock n state
  = (c <- run bank a clock n state ;;
     run bank b (fun i => clock (a + i)%nat) (fst c) (snd c)).
Proof.
  induction a as [|a IH]; intros b clock n state; [reflexivity|].
  cbn [Nat.add]. rewrite !run_S.
  destruct (step bank (clock O) n state) as [c|e]; [|reflexivity].
  cbn [bind]. now rewrite IH.
Qed.

(** *** The guard of [evaluate_answer] along a run *)

(** An update that leaves both keys alone, clears [awaiting_answer] or
    writes [current_question] keeps the state guard-safe. *)
Lemma guard_safe_merge u s :
  guard_safe s ->
  (awaiting_answer u = None /\ current_question u = None)
  \/ awaiting_answer u = Some false
  \/ current_question u <> None ->
  guard_safe (apply_update u s).
Proof.
  unfold guard_safe. cbn [apply_update awaiting_answer current_question].
  intros Hs [[Ha Hc]|[Ha|Hc]].
  - rewrite Ha, Hc. exact Hs.
  - rewrite Ha. discriminate.
  - intros _. destruct (current_question u); [discriminate|contradiction].
Qed.

Lemma adjust_difficulty_awaiting_answer d sc u :
  awaiting_answer (adjust_difficulty d sc u) = awaiting_answer u.
Proof. adjust_difficulty_cases. Qed.

(** Every node returns such an update. *)
Lemma node_update_guard_safe bank n now s u :
  node_update bank n now s = Ok u ->
  (awaiting_answer u = None /\ current_question u = None)
  \/ awaiting_answer u = Some false
  \/ current_question u <> None.
Proof.
  destruct n; cbn [node_update]; intros H.
  - injection H as <-. left. split; reflexivity.
  - injection H as <-. left. split; reflexivity.
  - injection H as <-. right. left. reflexivity.
  - unfold generate_question in H.
    destruct (_ >=? _); [injection H as <-; right; right; discriminate|].
    destruct (_select_question bank s); [|injection H as <-; right; right; discriminate].
    destruct (asked_questions s); [|discriminate H].
    destruct (question_counter s); [|discriminate H].
    cbn [bind item] in H. injection H as <-. right. right.
    destruct (q_type q); discriminate.
  - unfold evaluate_answer in H.
    destruct (negb _); [injection H as <-; left; split; reflexivity|].
    destruct (current_question s) as [[q|]|]; cbn [bind item] in H;
      [|injection H as <-; left; split; reflexivity|discriminate H].
    destruct (messages s); [|discriminate H].
    destruct (start_time s); [|discriminate H].
    destruct (answers s); [|discriminate H].
    destruct (difficulty s) as [d|]; [|discriminate H].
    cbn [bind item] in H. injection H as <-. right. left.
    destruct (follow_up_warranted _); cbn [awaiting_answer set_should_follow_up];
      rewrite adjust_difficulty_awaiting_answer; reflexivity.
  - unfold generate_follow_up_question in H.
    destruct (negb _); [injection H as <-; left; split; reflexivity|].
    destruct (current_question s) as [[q|]|]; cbn [bind item] in H;
      try (destruct (messages s); discriminate H).
    destruct (messages s); [|discriminate H]. cbn [bind item] in H.
    destruct (asked_questions s); [|discriminate H].
    destruct (question_counter s); [|discriminate H].
    cbn [bind item] in H. injection H as <-. right. right. discriminate.
  - unfold update_progress in H.
    destruct (answers s) as [ans|]; [|discriminate H]. cbn [bind item] in H.
    destruct (rev ans); [injection H as <-; left; split; reflexivity|].
    destruct (estimated_time_used_min s); [|discriminate H].
    cbn [bind item] in H. injection H as <-. left. split; reflexivity.
  - injection H as <-. left. split; reflexivity.
  - injection H as <-. left. split; reflexivity.
  - injection H as <-. left. split; reflexivity.
  - injection H as <-. unfold negotiate_salary.
    destruct (negb _); [left; split; reflexivity|].
    destruct (filter _ bank); [left; split; reflexivity|].
    right. right. discriminate.
  - injection H as <-. left. split; reflexivity.
Qed.

Lemma step_guard_safe bank now n s n' s' :
  guard_safe s -> step bank now n s = Ok (n', s') -> guard_safe s'.
Proof.
  intros Hs H. unfold step in H.
  destruct (node_update bank n now s) as [u|e] eqn:Hu; [|discriminate H].
  cbn [bind] in H.
  destruct (successor n (apply_update u s)); [|discriminate H].
  cbn [bind] in H. injection H as _ <-.
  apply guard_safe_merge; [exact Hs|].
  exact (node_update_guard_safe bank n now s u Hu).
Qed.

Lemma run_guard_safe bank k : forall clock n s n' s',
  guard_safe s -> run bank k clock n s = Ok (n', s') -> guard_safe s'.
Proof.
  induction k as [|k IH]; intros clock n s n' s' Hs H.
  - injection H as _ <-. exact Hs.
  - rewrite run_S in H.
    destruct (step bank (clock O) n s) as [[n1 s1]|e] eqn:Hst; [|discriminate H].
    cbn [bind fst snd] in H.
    exact (IH _ n1 s1 n' s' (step_guard_safe bank _ n s n1 s1 Hs Hst) H).
Qed.

Lemma analyze_role_guard_safe state :
  guard_safe (apply_update (analyze_role state) state).
Proof.
  unfold guard_safe, analyze_role.
  cbn [apply_update awaiting_answer or_else truthy get set_difficulty
       set_question_counter set_asked_questions set_answers
       set_awaiting_answer].
  discriminate.
Qed.

(** In every state the graph reaches after [analyze_role], from any input
    and under any clock, a truthy [awaiting_answer] comes with a
    [current_question] key: the lookup [state["current_question"]] of
    [evaluate_answer] does not raise there. *)
Lemma reachable_guard_safe bank k clock init n s :
  run bank (S k) clock n_analyze_role init = Ok (n, s) -> guard_safe s.
Proof.
  rewrite run_S. unfold step at 1. cbn [node_update bind].
  destruct (successor n_analyze_role (apply_update (analyze_role init) init))
    as [n1|e]; [|discriminate].
  cbn [bind fst snd]. apply run_guard_safe. apply analyze_role_guard_safe.
Qed.

(** *** Runs on concrete sessions *)

(** With an empty bank the three nodes of the loop only move between
    [prepared] and [stalled], whatever the clock. *)
Lemma stalled_step now n s :
  (n = n_generate_question \/ n = n_evaluate_answer \/ n = n_update_progress) ->
  (s = prepared \/ s = stalled) ->
  exists n' s',
    step [] now n s = Ok (n', s')
    /\ (n' = n_generate_question \/ n' = n_evaluate_answer
        \/ n' = n_update_progress)
    /\ (s' = prepared \/ s' = stalled).
Proof.
  intros Hn Hs. destruct Hn as [Hn|[Hn|Hn]]; destruct Hs as [Hs|Hs]; subst n s;
    eexists _, _;
    (split; [vm_compute; reflexivity|]); split; auto.
Qed.

(** So does any run from there. *)
Lemma stalled_run k : forall clock n s,
  (n = n_generate_question \/ n = n_evaluate_answer \/ n = n_update_progress) ->
  (s = prepared \/ s = stalled) ->
  exists n' s',
    run [] k clock n s = Ok (n', s')
    /\ (n' = n_generate_question \/ n' = n_evaluate_answer
        \/ n' = n_update_progress)
    /\ (s' = prepared \/ s' = stalled).
Proof.
  induction k as [|k IH]; intros clock n s Hn Hs.
  - exists n, s. auto.
  - rewrite run_S.
    destruct (stalled_step (clock O) n s Hn Hs) as (n1 & s1 & -> & Hn1 & Hs1).
    cbn [bind fst snd]. now apply IH.
Qed.

(** The three preparation nodes lead to [generate_question] on [prepared]. *)
Lemma prepared_run clock :
  run [] 3 clock n_parse_job_description (main_init 5)
  = Ok (n_generate_question, prepared).
Proof. vm_compute. reflexivity. Qed.

(** C2, on the failing input: with an empty bank and the [__main__] settings,
    after any number of steps and whatever the clock, the graph has not
    reached [generate_final_report] nor [END], the report is absent and no
    question was posed: it cycles through [generate_question],
    [evaluate_answer] and [update_progress]. *)
Theorem empty_bank_never_reports (clock : nat -> F64.float) (k : nat) :
  exists n s,
    run [] k clock n_parse_job_description (main_init 5) = Ok (n, s)
    /\ n <> n_generate_final_report
    /\ n <> END
    /\ final_report s = None
    /\ get (asked_questions s) [] = [].
Proof.
  assert (Hloop : forall n s,
             (n = n_generate_question \/ n = n_evaluate_answer
              \/ n = n_update_progress) ->
             (s = prepared \/ s = stalled) ->
             n <> n_generate_final_report /\ n <> END
             /\ final_report s = None /\ get (asked_questions s) [] = []).
  { intros n s Hn Hs.
    destruct Hn as [Hn|[Hn|Hn]]; destruct Hs as [Hs|Hs]; subst n s;
      (split; [discriminate|]); (split; [discriminate|]);
      split; reflexivity. }
  destruct k as [|[|[|k]]].
  - eexists _, _. split; [reflexivity|].
    split; [discriminate|]. split; [discriminate|]. split; reflexivity.
  - eexists _, _. split; [vm_compute; reflexivity|].
    split; [discriminate|]. split; [discriminate|]. split; reflexivity.
  - eexists _, _. split; [vm_compute; reflexivity|].
    split; [discriminate|]. split; [discriminate|]. split; reflexivity.
  - destruct (stalled_run k (fun i => clock (3 + i)%nat) n_generate_question
                prepared (or_introl eq_refl) (or_introl eq_refl))
      as (n & s & Hrun & Hn & Hs).
    exists n, s. split; [|now apply Hloop].
    change (S (S (S k))) with (3 + k)%nat.
    rewrite run_add, prepared_run. exact Hrun.
Qed.

(** C3, on the failing input: with a bank of one Python and one Salary
    question and a quota of one question, the run ends with two answer
    records, for q1 and sal1, while [asked_questions] holds q1 only:
    [negotiate_salary] poses its question without appending it. *)
Theorem salary_answer_not_among_asked :
  match
    run [python_question; salary_question] 12 minute_clock
        n_parse_job_description (main_init 1)
  with
  | Ok (n, s) =>
      n = END
      /\ map question_id (get (answers s) []) = ["q1"; "sal1"]
      /\ map q_id (get (asked_questions s) []) = ["q1"]
      /\ exists a, In a (get (answers s) [])
                   /\ ~ In (question_id a) (map q_id (get (asked_questions s) []))
  | Raise _ => False
  end.
Proof.
  vm_compute. split; [reflexivity|]. split; [reflexivity|].
  split; [reflexivity|].
  eexists. split; [right; left; reflexivity|].
  intros [H|[]]. discriminate H.
Qed.

(** C7, on the failing input: with a bank that has no Salary question and a
    quota of one, the estimated time is 1.0 min when the report is produced
    and 2.0 min when the run reaches [save_progress], with the same single
    answer record: [update_progress] ran again after an [evaluate_answer]
    that recorded nothing and added the last answer's minute once more. *)
Theorem progress_counts_last_answer_twice :
  match
    run [python_question] 6 minute_clock n_parse_job_description (main_init 1),
    run [python_question] 11 minute_clock n_parse_job_description (main_init 1)
  with
  | Ok (n, s), Ok (n', s') =>
      n = n_generate_final_report
      /\ n' = n_save_progress
      /\ List.length (get (answers s) []) = 1%nat
      /\ get (answers s') [] = get (answers s) []
      /\ estimated_time_used_min s = Some (F64.lit 1.0)
      /\ estimated_time_used_min s' = Some (F64.lit 2.0)
  | _, _ => False
  end.
Proof.
  vm_compute. repeat split.
Qed.

(** ** Whole runs *)

(** Destructs the scrutinees of the matches in [H], innermost first. *)
Ltac break_hyp H :=
  repeat match type of H with
         | context [match ?x with _ => _ end] =>
             lazymatch x with
             | context [match _ with _ => _ end] => fail
             | _ => destruct x eqn:?
             end
         end.

Ltac all_keys :=
  cbn [apply_update or_else empty
       required_skills max_questions asked_questions answers difficulty
       question_counter current_question start_time awaiting_answer
       time_budget_min estimated_time_used_min final_report messages
       should_follow_up salary_negotiation_phase interview_complete
       behavioral_questions technical_questions
       set_required_skills set_max_questions set_asked_questions set_answers
       set_difficulty set_question_counter set_current_question
       set_start_time set_awaiting_answer set_time_budget_min
       set_estimated_time_used_min set_final_report set_messages
       set_should_follow_up set_salary_negotiation_phase
       set_interview_complete set_behavioral_questions
       set_technical_questions] in *.

Lemma length_snoc_Z {A} (l : list A) (x : A) :
  Z.of_nat (List.length (l ++ [x])) = Z.of_nat (List.length l) + 1.
Proof. rewrite length_app. cbn [List.length]. lia. Qed.

Lemma adjust_difficulty_shape d sc u :
  adjust_difficulty d sc u = u
  \/ exists d', adjust_difficulty d sc u = set_difficulty d' u.
Proof.
  unfold adjust_difficulty.
  destruct (F64.geb sc (F64.lit 4.2)), (F64.ltb sc (F64.lit 3.0)), d; eauto.
Qed.

(** Inverts [node_update bank n now s = Ok u] once [n] is known: one goal per
    branch of the node, with [u] replaced by the update of that branch. *)
Ltac node_inv H :=
  cbn [node_update] in H;
  unfold generate_question, evaluate_answer, generate_follow_up_question,
    update_progress, negotiate_salary, parse_job_description,
    research_company, analyze_role, generate_final_report,
    start_salary_negotiation, save_progress, bind, item in H;
  break_hyp H; try discriminate H; injection H as <-;
  repeat match goal with
         | |- context [adjust_difficulty ?d ?sc ?u] =>
             destruct (adjust_difficulty_shape d sc u) as [->|[? ->]]
         end.

(** Merges the equations [k s = Some x] and [k s = Some y] of the context. *)
Ltac same_key :=
  repeat match goal with
         | E : Some _ = Some _ |- _ => injection E as E; subst
         | E : Some _ = None |- _ => discriminate E
         | E : None = Some _ |- _ => discriminate E
         | E : ?k = Some ?x, E' : ?k = Some ?y |- _ =>
             rewrite E in E'; injection E' as E'; subst
         | E : ?k = Some _, E' : ?k = None |- _ =>
             rewrite E in E'; discriminate E'
         end.

Lemma node_update_counter_matches bank n now s u :
  counter_matches s ->
  node_update bank n now s = Ok u ->
  counter_matches (apply_update u s).
Proof.
  intros (asked & Ha & Hc) H. unfold counter_matches.
  destruct n; node_inv H; all_keys; same_key;
    first [ exists []; split; reflexivity
          | eexists; split; [reflexivity|]; now rewrite length_snoc_Z
          | solve [eauto] ].
Qed.

Lemma step_counter_matches bank now n s n' s' :
  counter_matches s -> step bank now n s = Ok (n', s') -> counter_matches s'.
Proof.
  intros Hs H. unfold step in H.
  destruct (node_update bank n now s) as [u|e] eqn:Hu; [|discriminate H].
  cbn [bind] in H.
  destruct (successor n (apply_update u s)); [|discriminate H].
  cbn [bind] in H. injection H as _ <-.
  exact (node_update_counter_matches bank n now s u Hs Hu).
Qed.

Lemma controller_edges_total s : controller_edges (controller s) = Ok (controller s).
Proof.
  unfold controller.
  destruct (truthy (interview_complete s));
    [destruct (negb _); reflexivity|].
  destruct (get (should_follow_up s) false); [reflexivity|].
  destruct (F64.geb_int _ _); [reflexivity|].
  destruct (_ >=? _); reflexivity.
Qed.

Lemma controller_generate_question s :
  controller s = n_generate_question ->
  truthy (interview_complete s) = false
  /\ truthy (should_follow_up s) = false
  /\ get (question_counter s) 0 < get (max_questions s) 5.
Proof.
  unfold controller, truthy.
  destruct (get (interview_complete s) false);
    [destruct (negb _); discriminate|].
  destruct (get (should_follow_up s) false); [discriminate|].
  destruct (F64.geb_int _ _); [discriminate|].
  destruct (Z.geb_spec (get (question_counter s) 0) (get (max_questions s) 5));
    [discriminate|]. intros _. repeat split. lia.
Qed.

Lemma controller_in_loop s : in_loop (controller s) = true.
Proof.
  unfold controller.
  destruct (truthy (interview_complete s));
    [destruct (negb _); reflexivity|].
  destruct (get (should_follow_up s) false); [reflexivity|].
  destruct (F64.geb_int _ _); [reflexivity|].
  destruct (_ >=? _); reflexivity.
Qed.

Lemma report_edges_complete s :
  truthy (interview_complete s) = true ->
  report_edges (controller s) = Ok (controller s).
Proof.
  intros H. unfold controller. rewrite H. destruct (negb _); reflexivity.
Qed.

(** The successor of a loop node is a loop node. *)
Lemma successor_in_loop n s n' :
  n <> n_parse_job_description -> n <> n_research_company ->
  successor n s = Ok n' -> in_loop n' = true.
Proof.
  intros Hp Hr H. destruct n; cbn [successor] in H;
    try congruence; try (injection H as <-; reflexivity).
  - rewrite controller_edges_total in H. injection H as <-.
    apply controller_in_loop.
  - rewrite controller_edges_total in H. injection H as <-.
    apply controller_in_loop.
  - unfold report_edges in H. destruct (controller s); try discriminate H;
      injection H as <-; reflexivity.
Qed.

Lemma loop_keys_items s :
  loop_keys s ->
  exists asked counter old d est,
    asked_questions s = Some asked /\ question_counter s = Some counter
    /\ answers s = Some old /\ difficulty s = Some d
    /\ estimated_time_used_min s = Some est.
Proof.
  intros (Ha & Hc & Ho & Hd & He).
  destruct (asked_questions s) as [a|]; [|congruence].
  destruct (question_counter s) as [c|]; [|congruence].
  destruct (answers s) as [o|]; [|congruence].
  destruct (difficulty s) as [d|]; [|congruence].
  destruct (estimated_time_used_min s) as [e|]; [|congruence].
  exists a, c, o, d, e. repeat split.
Qed.

Lemma question_posed_items s :
  question_posed s ->
  exists q msgs start,
    current_question s = Some (Some q) /\ messages s = Some msgs
    /\ start_time s = Some start.
Proof.
  intros ((q & Hq) & Hm & Hs).
  destruct (messages s) as [m|]; [|congruence].
  destruct (start_time s) as [t|]; [|congruence].
  exists q, m, t. repeat split. exact Hq.
Qed.

Lemma truthy_cases (b : option bool) : truthy b = true \/ truthy b = false.
Proof. destruct (truthy b); auto. Qed.

Lemma step_generate_question bank now s :
  well_keyed n_generate_question s ->
  exists s', step bank now n_generate_question s = Ok (n_evaluate_answer, s')
             /\ well_keyed n_evaluate_answer s'.
Proof.
  intros (_ & Hk & Ha & Hf & Hg).
  specialize (Hg eq_refl).
  assert (Haw : truthy (awaiting_answer s) = false).
  { destruct (truthy_cases (awaiting_answer s)) as [E|E]; [|exact E].
    destruct (Ha E) as [E' _]. discriminate E'. }
  destruct (loop_keys_items s Hk) as (asked & counter & old & d & est
                                     & Hasked & Hcounter & Hold & Hd & Hest).
  unfold step. cbn [node_update successor]. unfold generate_question.
  rewrite Hasked, Hcounter. cbn [bind item get].
  destruct (counter >=? get (max_questions s) 5).
  { eexists. split; [reflexivity|]. unfold well_keyed, loop_keys, question_posed.
    all_keys. rewrite Hasked, Hcounter, Hold, Hd, Hest, Haw, Hg.
    repeat split; try discriminate. }
  destruct (_select_question bank s) as [q|].
  2:{ eexists. split; [reflexivity|]. unfold well_keyed, loop_keys, question_posed.
    all_keys. rewrite Hasked, Hcounter, Hold, Hd, Hest, Haw, Hg.
    repeat split; try discriminate. }
  cbn [bind]. eexists. split; [reflexivity|].
  unfold well_keyed, loop_keys, question_posed.
  destruct (q_type q); all_keys; rewrite ?Hold, ?Hd, ?Hest, ?Hg;
    repeat split; try discriminate; eauto.
Qed.

Ltac well_keyed_goal :=
  unfold well_keyed, loop_keys, question_posed; all_keys.

Lemma step_generate_follow_up bank now s :
  well_keyed n_generate_follow_up_question s ->
  exists s',
    step bank now n_generate_follow_up_question s = Ok (n_evaluate_answer, s')
    /\ well_keyed n_evaluate_answer s'.
Proof.
  intros (_ & Hk & Ha & Hf & _).
  assert (Haw : truthy (awaiting_answer s) = false).
  { destruct (truthy_cases (awaiting_answer s)) as [E|E]; [|exact E].
    destruct (Ha E) as [E' _]. discriminate E'. }
  destruct (loop_keys_items s Hk) as (asked & counter & old & d & est
                                     & Hasked & Hcounter & Hold & Hd & Hest).
  unfold step. cbn [node_update successor]. unfold generate_follow_up_question.
  destruct (truthy_cases (should_follow_up s)) as [E|E]; rewrite E; cbn [negb].
  - destruct (question_posed_items s (Hf E)) as (q & msgs & start & Hq & Hm & Hs).
    rewrite Hq, Hm, Hasked, Hcounter. cbn [bind item].
    eexists. split; [reflexivity|]. well_keyed_goal.
    rewrite ?Hold, ?Hd, ?Hest, ?Hs. repeat split; try discriminate; eauto.
  - cbn [bind]. rewrite apply_update_empty.
    eexists. split; [reflexivity|]. well_keyed_goal.
    rewrite Hasked, Hcounter, Hold, Hd, Hest, Haw, E.
    repeat split; try discriminate.
Qed.

Lemma step_evaluate_answer bank now s :
  well_keyed n_evaluate_answer s ->
  exists s',
    step bank now n_evaluate_answer s = Ok (n_update_progress, s')
    /\ well_keyed n_update_progress s'.
Proof.
  intros (_ & Hk & Ha & Hf & _).
  destruct (loop_keys_items s Hk) as (asked & counter & old & d & est
                                     & Hasked & Hcounter & Hold & Hd & Hest).
  unfold step. cbn [node_update successor].
  destruct (truthy_cases (awaiting_answer s)) as [E|E].
  - destruct (Ha E) as [_ Hp].
    destruct (question_posed_items s Hp) as (q & msgs & start & Hq & Hm & Hs).
    assert (Et : awaiting_answer s = Some true).
    { unfold truthy, get in E. destruct (awaiting_answer s) as [[]|];
        congruence. }
    rewrite (evaluate_answer_runs now s q msgs start old d Et Hq Hm Hs Hold Hd).
    cbn [bind]. eexists. split; [reflexivity|].
    unfold evaluation. cbv zeta.
    destruct (adjust_difficulty_shape d
                (score (answer_record now s q msgs start))
                (set_answers (old ++ [answer_record now s q msgs start])
                   (set_awaiting_answer false
                      (set_should_follow_up false empty))))
      as [->|[d' ->]];
      destruct (follow_up_warranted _); well_keyed_goal;
      rewrite ?Hasked, ?Hcounter, ?Hest, ?Hd, ?Hq, ?Hm, ?Hs;
      repeat split; try discriminate; eauto.
  - unfold evaluate_answer. rewrite E. cbn [negb bind].
    rewrite apply_update_empty. eexists. split; [reflexivity|].
    split; [reflexivity|]. split; [exact Hk|].
    split; [intro; congruence|]. split; [exact Hf|]. discriminate.
Qed.

Lemma well_keyed_not_awaiting n s :
  well_keyed n s -> n <> n_evaluate_answer ->
  truthy (awaiting_answer s) = false.
Proof.
  intros (_ & _ & Ha & _) Hn.
  destruct (truthy_cases (awaiting_answer s)) as [E|E]; [|exact E].
  destruct (Ha E) as [E' _]. contradiction.
Qed.

Lemma step_update_progress bank now s :
  well_keyed n_update_progress s ->
  exists n' s',
    step bank now n_update_progress s = Ok (n', s') /\ well_keyed n' s'.
Proof.
  intros H.
  pose proof (well_keyed_not_awaiting _ _ H ltac:(discriminate)) as Haw.
  destruct H as (_ & Hk & _ & Hf & _).
  destruct (loop_keys_items s Hk) as (asked & counter & old & d & est
                                     & Hasked & Hcounter & Hold & Hd & Hest).
  unfold step. cbn [node_update successor]. unfold update_progress.
  rewrite Hold, Hest. cbn [bind item].
  destruct (rev old) as [|last_answer rest]; cbn [bind];
    rewrite controller_edges_total; cbn [bind];
    eexists; eexists; (split; [reflexivity|]).
  - rewrite apply_update_empty.
    split; [apply controller_in_loop|]. split; [exact Hk|].
    split; [intro; congruence|]. split; [exact Hf|].
    intros E. now destruct (controller_generate_question _ E) as (_ & ? & _).
  - match goal with |- well_keyed (controller ?s') _ =>
      pose proof (controller_in_loop s') as Hin;
      pose proof (controller_generate_question s') as Hg;
      generalize dependent (controller s') end.
    intros n' Hin Hg.
    unfold well_keyed, loop_keys, question_posed in *. all_keys.
    rewrite Hasked, Hcounter, Hold, Hd in *.
    split; [exact Hin|]. split; [repeat split; discriminate|].
    split; [intro; congruence|].
    split; [intros E; destruct (Hf E) as (Hq & _ & Hs);
            repeat split; [exact Hq|discriminate|exact Hs]|].
    intros E. now destruct (Hg E) as (_ & ? & _).
Qed.

Lemma step_generate_final_report bank now s :
  well_keyed n_generate_final_report s ->
  exists n' s',
    step bank now n_generate_final_report s = Ok (n', s') /\ well_keyed n' s'.
Proof.
  intros H.
  pose proof (well_keyed_not_awaiting _ _ H ltac:(discriminate)) as Haw.
  destruct H as (_ & Hk & _ & Hf & _).
  unfold step. cbn [node_update bind successor].
  rewrite report_edges_complete by reflexivity. cbn [bind].
  eexists; eexists; (split; [reflexivity|]).
  match goal with |- well_keyed (controller ?s') _ =>
    pose proof (controller_in_loop s') as Hin;
    pose proof (controller_generate_question s') as Hg;
    generalize dependent (controller s') end.
  intros n' Hin Hg.
  unfold well_keyed, loop_keys, question_posed, generate_final_report in *.
  all_keys.
  split; [exact Hin|]. split; [exact Hk|].
  split; [intro; congruence|].
  split; [intros E; destruct (Hf E) as (Hq & _ & Hs);
          repeat split; [exact Hq|discriminate|exact Hs]|].
  intros E. destruct (Hg E) as (Hc & _). discriminate Hc.
Qed.

Lemma step_start_salary_negotiation bank now s :
  well_keyed n_start_salary_negotiation s ->
  exists s',
    step bank now n_start_salary_negotiation s = Ok (n_negotiate_salary, s')
    /\ well_keyed n_negotiate_salary s'.
Proof.
  intros H.
  pose proof (well_keyed_not_awaiting _ _ H ltac:(discriminate)) as Haw.
  destruct H as (_ & Hk & _ & Hf & _).
  eexists. split; [reflexivity|].
  unfold well_keyed, loop_keys, question_posed, start_salary_negotiation in *.
  all_keys.
  split; [reflexivity|]. split; [exact Hk|].
  split; [intro; congruence|]. split; [exact Hf|]. discriminate.
Qed.

Lemma step_negotiate_salary bank now s :
  well_keyed n_negotiate_salary s ->
  exists s',
    step bank now n_negotiate_salary s = Ok (n_evaluate_answer, s')
    /\ well_keyed n_evaluate_answer s'.
Proof.
  intros H.
  pose proof (well_keyed_not_awaiting _ _ H ltac:(discriminate)) as Haw.
  destruct H as (_ & Hk & _ & Hf & _).
  eexists. split; [reflexivity|].
  unfold negotiate_salary.
  destruct (negb _);
    [|destruct (filter _ bank) as [|question rest]];
    unfold well_keyed, loop_keys, question_posed in *; all_keys.
  1,2: split; [reflexivity|]; split; [exact Hk|];
       split; [intro; congruence|]; split; [exact Hf|]; discriminate.
  split; [reflexivity|]. split; [exact Hk|].
  split; [intros _; split; [reflexivity|];
          repeat split; try discriminate; eauto|].
  split; [intros _; repeat split; try discriminate; eauto|]. discriminate.
Qed.

Lemma step_save_progress bank now s :
  well_keyed n_save_progress s ->
  step bank now n_save_progress s = Ok (END, s) /\ well_keyed END s.
Proof.
  intros H.
  pose proof (well_keyed_not_awaiting _ _ H ltac:(discriminate)) as Haw.
  destruct H as (_ & Hk & _ & Hf & _).
  unfold step. cbn [node_update bind successor save_progress].
  rewrite apply_update_empty. split; [reflexivity|].
  split; [reflexivity|]. split; [exact Hk|].
  split; [intro; congruence|]. split; [exact Hf|]. discriminate.
Qed.

Lemma step_END bank now s :
  well_keyed END s -> step bank now END s = Ok (END, s).
Proof.
  intros _. unfold step. cbn [node_update bind successor].
  now rewrite apply_update_empty.
Qed.

(** From a well-keyed state every node runs, and leaves a well-keyed
    state at the node the edges lead to. *)
Lemma step_well_keyed bank now n s :
  well_keyed n s ->
  exists n' s', step bank now n s = Ok (n', s') /\ well_keyed n' s'.
Proof.
  intros H. destruct n.
  1-3: destruct H as [H _]; discriminate H.
  - destruct (step_generate_question bank now s H) as (s' & ?); eauto.
  - destruct (step_evaluate_answer bank now s H) as (s' & ?); eauto.
  - destruct (step_generate_follow_up bank now s H) as (s' & ?); eauto.
  - apply step_update_progress, H.
  - apply step_generate_final_report, H.
  - destruct (step_save_progress bank now s H); eauto.
  - destruct (step_start_salary_negotiation bank now s H) as (s' & ?); eauto.
  - destruct (step_negotiate_salary bank now s H) as (s' & ?); eauto.
  - exists END, s. split; [now apply step_END|exact H].
Qed.

Lemma run_well_keyed bank k : forall clock n s,
  well_keyed n s ->
  exists n' s', run bank k clock n s = Ok (n', s') /\ well_keyed n' s'.
Proof.
  induction k as [|k IH]; intros clock n s H.
  - exists n, s. split; [reflexivity|exact H].
  - destruct (step_well_keyed bank (clock O) n s H) as (n1 & s1 & E & H1).
    destruct (IH (fun i => clock (S i)) n1 s1 H1) as (n' & s' & E' & H').
    exists n', s'. split; [|exact H']. cbn [run]. rewrite E. cbn [bind].
    exact E'.
Qed.

(** What holds of node and state before a step and is kept by every step
    holds after a run. *)
Lemma run_invariant bank (I : Node -> InterviewState -> Prop) :
  (forall now n s n' s', I n s -> step bank now n s = Ok (n', s') -> I n' s') ->
  forall k clock n s n' s',
    I n s -> run bank k clock n s = Ok (n', s') -> I n' s'.
Proof.
  intros Hstep. induction k as [|k IH]; intros clock n s n' s' Hs H.
  - cbn [run] in H. injection H as <- <-. exact Hs.
  - rewrite run_S in H.
    destruct (step bank (clock O) n s) as [[n1 s1]|e] eqn:E; [|discriminate H].
    cbn [bind fst snd] in H. eapply IH; [|exact H]. eapply Hstep; eauto.
Qed.

(** [step], inverted. *)
Lemma step_inv bank now n s n' s' :
  step bank now n s = Ok (n', s') ->
  exists u, node_update bank n now s = Ok u /\ s' = apply_update u s
            /\ successor n s' = Ok n'.
Proof.
  unfold step. intros H.
  destruct (node_update bank n now s) as [u|e]; [|discriminate H].
  cbn [bind] in H.
  destruct (successor n (apply_update u s)) as [m|e] eqn:E; [|discriminate H].
  cbn [bind] in H. injection H as <- <-. exists u. auto.
Qed.

(** The three preparation nodes always run, and hand over to the node
    [controller] names. *)
Lemma run_prepare bank clock init :
  run bank 3 clock n_parse_job_description init
  = Ok (controller (prepare init), prepare init).
Proof.
  unfold run, step. cbn [node_update successor bind fst snd].
  rewrite controller_edges_total. reflexivity.
Qed.

Lemma prepare_well_keyed init :
  truthy (should_follow_up init) = false ->
  well_keyed (controller (prepare init)) (prepare init).
Proof.
  intros Hf.
  pose proof (controller_in_loop (prepare init)) as Hin.
  pose proof (controller_generate_question (prepare init)) as Hg.
  generalize dependent (controller (prepare init)). intros n Hin Hg.
  unfold well_keyed, loop_keys, question_posed, prepare, analyze_role,
    research_company, parse_job_description in *.
  all_keys.
  split; [exact Hin|]. split; [repeat split; discriminate|].
  split; [discriminate|]. split; [intro; congruence|].
  intros E. now destruct (Hg E) as (_ & ? & _).
Qed.

Lemma run_after_prepare bank k clock init :
  run bank (3 + k) clock n_parse_job_description init
  = run bank k (fun i => clock (3 + i)%nat) (controller (prepare init))
        (prepare init).
Proof. rewrite run_add, run_prepare. reflexivity. Qed.

(** X1. A run of the graph of [build_interview_graph] never fails on a
    state access or on an edge label: whatever the bank, the clock and the
    number of steps, if [should_follow_up] is not truthy in the initial
    state, every node finds the keys it reads with [state[...]], and every
    label [controller] returns is mapped by the edges that consult it. *)
Theorem graph_never_raises bank clock k init :
  truthy (should_follow_up init) = false ->
  exists n s, run bank k clock n_parse_job_description init = Ok (n, s).
Proof.
  intros Hf. destruct (Nat.le_gt_cases 3 k) as [Hk|Hk].
  - replace k with (3 + (k - 3))%nat by lia. rewrite run_after_prepare.
    destruct (run_well_keyed bank (k - 3) (fun i => clock (3 + i)%nat) _ _
                (prepare_well_keyed init Hf)) as (n & s & E & _).
    eauto.
  - destruct k as [|[|[|k]]]; [| | |lia]; unfold run, step;
      cbn [node_update successor bind fst snd]; eauto.
Qed.

Lemma graph_never_raises_witness :
  exists n s,
    run [python_question; salary_question] 12 minute_clock
        n_parse_job_description (main_init 5) = Ok (n, s).
Proof. apply graph_never_raises. reflexivity. Defined.

Lemma run_Raise bank k clock n s e :
  step bank (clock O) n s = Raise e -> run bank (S k) clock n s = Raise e.
Proof. intros H. rewrite run_S, H. reflexivity. Qed.

(** X2. The hypothesis of X1 is needed: from an initial state in which
    [should_follow_up] is truthy, [interview_complete] is not, and the key
    [current_question] is absent, the fourth node to run is
    [generate_follow_up_question], and its [state["current_question"]]
    raises [KeyError]. *)
Theorem follow_up_flag_without_question_raises bank clock k init :
  truthy (should_follow_up init) = true ->
  truthy (interview_complete init) = false ->
  current_question init = None ->
  run bank (4 + k) clock n_parse_job_description init
  = Raise (KeyError "current_question").
Proof.
  intros Hf Hc Hq.
  replace (4 + k)%nat with (3 + S k)%nat by lia.
  rewrite run_after_prepare.
  assert (E : controller (prepare init) = n_generate_follow_up_question).
  { unfold controller, prepare, analyze_role, research_company,
      parse_job_description. all_keys. rewrite Hc.
    unfold truthy in Hf. rewrite Hf. reflexivity. }
  rewrite E. apply run_Raise.
  unfold step. cbn [node_update]. unfold generate_follow_up_question, prepare,
    analyze_role, research_company, parse_job_description. all_keys.
  rewrite Hf, Hq. reflexivity.
Qed.

Lemma follow_up_flag_without_question_raises_witness :
  run [python_question] 4 minute_clock n_parse_job_description
      (set_should_follow_up true (main_init 5))
  = Raise (KeyError "current_question").
Proof.
  apply (follow_up_flag_without_question_raises [python_question]
           minute_clock 0 (set_should_follow_up true (main_init 5)));
    reflexivity.
Defined.

(** X3. After [analyze_role], [question_counter] is the length of
    [asked_questions] in every state of a run: [generate_question] and
    [generate_follow_up_question] extend the list and the counter together,
    and no other node writes either. *)
Theorem question_counter_counts_asked bank clock k init n s :
  run bank (3 + k) clock n_parse_job_description init = Ok (n, s) ->
  counter_matches s.
Proof.
  rewrite run_after_prepare. intros H.
  refine (run_invariant bank (fun _ s => counter_matches s) _ k _ _ _ n s _ H).
  - intros now n0 s0 n1 s1 Hs Hstep.
    exact (step_counter_matches bank now n0 s0 n1 s1 Hs Hstep).
  - exists []. split; reflexivity.
Qed.

Lemma question_counter_counts_asked_witness : counter_matches (session_state 60).
Proof.
  apply (question_counter_counts_asked demo_bank minute_clock 57 (main_init 5)
           (session_node 60) (session_state 60)).
  vm_compute. reflexivity.
Defined.

Lemma extends_refl {A} (l : list A) : extends l l.
Proof. exists []. now rewrite app_nil_r. Qed.

Lemma extends_snoc {A} (l : list A) x : extends l (l ++ [x]).
Proof. now exists [x]. Qed.

Lemma extends_trans {A} (l1 l2 l3 : list A) :
  extends l1 l2 -> extends l2 l3 -> extends l1 l3.
Proof.
  intros [m ->] [m' ->]. exists (m ++ m'). now rewrite app_assoc.
Qed.

(** Rewrites the goal with the key equations of the context. *)
Ltac read_keys :=
  repeat match goal with
         | E : ?k = Some _ |- context [?k] => rewrite E
         | E : ?k = None |- context [?k] => rewrite E
         end.

Lemma node_update_extends bank n now s u :
  in_loop n = true ->
  node_update bank n now s = Ok u ->
  extends (get (asked_questions s) []) (get (asked_questions (apply_update u s)) [])
  /\ extends (get (answers s) []) (get (answers (apply_update u s)) []).
Proof.
  intros Hn H.
  destruct n; try discriminate Hn; node_inv H; all_keys; read_keys;
    cbn [get]; split; first [apply extends_refl | apply extends_snoc].
Qed.

(** X4. From any node other than the three preparation nodes,
    [asked_questions] and [answers] only grow: the lists of a later state
    are those of an earlier one with entries appended. *)
Theorem histories_only_grow bank k clock n s n' s' :
  in_loop n = true ->
  run bank k clock n s = Ok (n', s') ->
  extends (get (asked_questions s) []) (get (asked_questions s') [])
  /\ extends (get (answers s) []) (get (answers s') []).
Proof.
  intros Hn H.
  refine (proj2 (run_invariant bank
            (fun n1 s1 =>
               in_loop n1 = true
               /\ extends (get (asked_questions s) []) (get (asked_questions s1) [])
               /\ extends (get (answers s) []) (get (answers s1) []))
            _ k clock n s n' s' _ H)).
  - intros now n0 s0 n1 s1 (Hin & Ha & Hb) Hstep.
    destruct (step_inv _ _ _ _ _ _ Hstep) as (u & Hu & -> & Hsucc).
    destruct (node_update_extends bank n0 now s0 u Hin Hu) as [Ha' Hb'].
    split; [|split; eapply extends_trans; eauto].
    apply (successor_in_loop n0 (apply_update u s0) n1);
      [destruct n0; discriminate|destruct n0; discriminate|exact Hsucc].
  - split; [exact Hn|]. split; apply extends_refl.
Qed.

Lemma histories_only_grow_witness :
  extends (get (asked_questions (session_state 3)) [])
          (get (asked_questions (session_state 60)) [])
  /\ extends (get (answers (session_state 3)) [])
             (get (answers (session_state 60)) []).
Proof.
  apply (histories_only_grow demo_bank 57 (fun i => minute_clock (3 + i))
           (session_node 3) (session_state 3) (session_node 60));
    vm_compute; reflexivity.
Defined.

Lemma in_map_snoc {A B} (f : A -> B) (l : list A) (x : A) (y : B) :
  In y (map f l) \/ y = f x -> In y (map f (l ++ [x])).
Proof.
  rewrite map_app, in_app_iff. cbn [map In]. intuition auto.
Qed.

(** Rewrites goal and context with the key equations of the context. *)
Ltac read_keys_everywhere :=
  repeat match goal with
         | E : ?k = Some _, H : context [?k] |- _ =>
             lazymatch H with E => fail | _ => rewrite E in H end
         | E : ?k = Some _ |- context [?k] => rewrite E
         end.

Lemma negb_truthy_false b : negb (truthy b) = false -> truthy b = true.
Proof. now destruct (truthy b). Qed.

Lemma node_update_answers_are_asked bank n now s u :
  answers_are_asked s ->
  node_update bank n now s = Ok u ->
  answers_are_asked (apply_update u s).
Proof.
  unfold answers_are_asked, asked_ids. intros Hs H.
  destruct n; node_inv H; all_keys; intros Hsal;
    cbn [truthy get] in Hsal; try discriminate Hsal;
    try (destruct (Hs Hsal) as [Hans Hcur]; clear Hs);
    repeat match goal with
           | E : negb (truthy _) = false |- _ => apply negb_truthy_false in E
           end;
    read_keys_everywhere; cbn [get] in *.
  all: try (split; [exact Hans|exact Hcur]).
  all: try congruence.
  all: split;
    [ intros a Ha;
      try (apply in_app_iff in Ha; destruct Ha as [Ha|[<-|[]]]);
      first [ contradiction
            | solve [apply in_map_snoc; left; apply Hans; exact Ha]
            | solve [apply Hans; exact Ha]
            | solve [cbn [question_id]; eapply Hcur; eauto] ]
    | intros Haw q0 Hq0; cbn [truthy get] in Haw;
      first [ discriminate Haw | discriminate Hq0
            | solve [injection Hq0 as <-; apply in_map_snoc; right; reflexivity]
            | solve [eapply Hcur; eauto]
            | solve [apply in_map_snoc; left; eapply Hcur; eauto] ] ].
Qed.

(** X5. As long as [salary_negotiation_phase] is not truthy, every record
    of [answers] carries the id of a question of [asked_questions].  (The
    salary stage is where this stops: [negotiate_salary] poses a question
    without listing it.) *)
Theorem answers_come_from_asked_questions bank clock k init n s :
  run bank (3 + k) clock n_parse_job_description init = Ok (n, s) ->
  truthy (salary_negotiation_phase s) = false ->
  forall a, In a (get (answers s) []) -> In (question_id a) (asked_ids s).
Proof.
  rewrite run_after_prepare. intros H Hsal.
  refine (proj1 (run_invariant bank (fun _ s => answers_are_asked s)
                   _ k _ _ _ n s _ H Hsal)).
  - intros now n0 s0 n1 s1 Hs Hstep.
    destruct (step_inv _ _ _ _ _ _ Hstep) as (u & Hu & -> & _).
    exact (node_update_answers_are_asked bank n0 now s0 u Hs Hu).
  - intros _. split; [intros a []|discriminate].
Qed.

Lemma answers_come_from_asked_questions_witness :
  Forall (fun a => In (question_id a) (asked_ids (session_state 30)))
         (get (answers (session_state 30)) []).
Proof.
  apply Forall_forall.
  apply (answers_come_from_asked_questions demo_bank minute_clock 27
           (main_init 5) (session_node 30) (session_state 30));
    vm_compute; reflexivity.
Defined.

Lemma last_human_content_snoc_ai msgs c :
  last_human_content (msgs ++ [AIMessage c]) = last_human_content msgs.
Proof. unfold last_human_content. rewrite rev_app_distr. reflexivity. Qed.

Lemma node_update_answers_echo bank h n now s u :
  answers_echo parsed_skills h s ->
  node_update bank n now s = Ok u ->
  answers_echo parsed_skills h (apply_update u s).
Proof.
  unfold answers_echo. intros (Hsk & Hm & Hans) H.
  destruct n; node_inv H; all_keys; read_keys_everywhere; cbn [get] in *;
    rewrite ?last_human_content_snoc_ai.
  all: try (split; [assumption|split; assumption]).
  all: split; [first [reflexivity|assumption]|]; split; [assumption|].
  all: intros a Ha;
    try (apply in_app_iff in Ha; destruct Ha as [Ha|[<-|[]]]);
    first [ contradiction
          | solve [apply Hans; exact Ha]
          | cbn [user_answer score]; rewrite Hsk, Hm; split; reflexivity ].
Qed.

(** X6. One invocation of the graph reads no input once it has started:
    the nodes append AI messages only.  So every answer recorded in a run
    has for [user_answer] the last human message of the initial state, and
    for [score] the score of that text against the skills
    [parse_job_description] writes. *)
Theorem one_invocation_echoes_one_answer bank clock k init n s :
  run bank (3 + k) clock n_parse_job_description init = Ok (n, s) ->
  forall a, In a (get (answers s) []) ->
    user_answer a = last_human_content (get (messages init) [])
    /\ score a = score_of parsed_skills
                   (last_human_content (get (messages init) [])).
Proof.
  rewrite run_after_prepare. intros H.
  refine (proj2 (proj2 (run_invariant bank
            (fun _ s => answers_echo parsed_skills
                          (last_human_content (get (messages init) [])) s)
            _ k _ _ _ n s _ H))).
  - intros now n0 s0 n1 s1 Hs Hstep.
    destruct (step_inv _ _ _ _ _ _ Hstep) as (u & Hu & -> & _).
    exact (node_update_answers_echo bank _ n0 now s0 u Hs Hu).
  - split; [reflexivity|]. split; [reflexivity|]. intros a [].
Qed.

Lemma one_invocation_echoes_one_answer_witness :
  Forall (fun a =>
            user_answer a = last_human_content (get (messages (main_init 5)) [])
            /\ score a = score_of parsed_skills
                 (last_human_content (get (messages (main_init 5)) [])))
         (get (answers (session_state 60)) []).
Proof.
  apply Forall_forall.
  apply (one_invocation_echoes_one_answer demo_bank minute_clock 57
           (main_init 5) (session_node 60) (session_state 60)).
  vm_compute. reflexivity.
Defined.

Lemma controller_complete s :
  truthy (interview_complete s) = true ->
  controller s = if negb (truthy (salary_negotiation_phase s))
                 then n_start_salary_negotiation else n_save_progress.
Proof. intros H. unfold controller. now rewrite H. Qed.

Lemma closing_step bank now n s :
  closing n s ->
  exists n' s',
    step bank now n s = Ok (n', s')
    /\ closing n' s'
    /\ (tail_rank n' <= Nat.pred (tail_rank n))%nat
    /\ final_report s' = final_report s
    /\ asked_questions s' = asked_questions s
    /\ question_counter s' = question_counter s
    /\ (List.length (get (answers s') [])
        <= List.length (get (answers s) [])
           + (if Nat.eqb (tail_rank n) 3 then 1 else 0))%nat.
Proof.
  intros (Hwk & Hc & Hph).
  destruct (step_well_keyed bank now n s Hwk) as (n' & s' & E & Hwk').
  exists n', s'. split; [exact E|].
  destruct (step_inv _ _ _ _ _ _ E) as (u & Hu & -> & Hsucc). clear E.
  assert (Hc' : truthy (interview_complete (apply_update u s)) = true).
  { clear Hsucc Hwk'. destruct n; try contradiction; node_inv Hu; all_keys;
      first [exact Hc|reflexivity]. }
  assert (Hsal : n = n_start_salary_negotiation
                 \/ truthy (salary_negotiation_phase s) = true ->
                 truthy (salary_negotiation_phase (apply_update u s)) = true).
  { clear Hsucc Hwk' Hc' Hph. intros [->|Hph];
      [injection Hu as <-; reflexivity|].
    destruct n; node_inv Hu; all_keys; first [exact Hph|reflexivity]. }
  assert (Hkeep :
    final_report (apply_update u s) = final_report s
    /\ asked_questions (apply_update u s) = asked_questions s
    /\ question_counter (apply_update u s) = question_counter s
    /\ (List.length (get (answers (apply_update u s)) [])
        <= List.length (get (answers s) [])
           + (if Nat.eqb (tail_rank n) 3 then 1 else 0))%nat).
  { clear Hsucc Hwk' Hc' Hsal.
    destruct n; try contradiction; node_inv Hu; all_keys; read_keys_everywhere;
      cbn [get tail_rank Nat.eqb]; repeat (split; [reflexivity|]);
      rewrite ?length_app; cbn [List.length]; lia. }
  split; [|split; [|exact Hkeep]].
  - split; [exact Hwk'|]. split; [exact Hc'|].
    destruct n; try contradiction; cbn [successor] in Hsucc;
      try (rewrite controller_edges_total, controller_complete in Hsucc
             by exact Hc');
      try rewrite (Hsal (or_intror Hph)) in Hsucc;
      injection Hsucc as <-; first [exact I|apply Hsal; auto].
  - destruct n; try contradiction; cbn [successor] in Hsucc;
      try (rewrite controller_edges_total, controller_complete in Hsucc
             by exact Hc');
      try rewrite (Hsal (or_intror Hph)) in Hsucc;
      injection Hsucc as <-; cbn [tail_rank Nat.pred]; lia.
Qed.

Lemma closing_run bank k : forall clock n s,
  closing n s -> (tail_rank n <= k)%nat ->
  exists s',
    run bank k clock n s = Ok (END, s')
    /\ truthy (interview_complete s') = true
    /\ closes n s s'.
Proof.
  induction k as [|k IH]; intros clock n s Hcl Hk.
  - exists s. assert (n = END) as ->
      by (destruct Hcl as (_ & _ & Hph); destruct n;
          try contradiction; cbn [tail_rank] in Hk; try lia; reflexivity).
    split; [reflexivity|]. split; [apply Hcl|].
    unfold closes. repeat (split; [reflexivity|]). lia.
  - destruct (closing_step bank (clock O) n s Hcl)
      as (n1 & s1 & E & Hcl1 & Hr & Hf & Ha & Hq & Hl).
    destruct (IH (fun i => clock (S i)) n1 s1 Hcl1 ltac:(lia))
      as (s' & E' & Hc' & Hf' & Ha' & Hq' & Hl').
    exists s'. rewrite run_S, E. cbn [bind fst snd].
    split; [exact E'|]. split; [exact Hc'|].
    unfold closes. rewrite Hf', Ha', Hq', Hf, Ha, Hq.
    repeat (split; [reflexivity|]).
    clear - Hl Hl' Hr.
    destruct n, n1; cbn [tail_rank Nat.pred Nat.eqb Nat.leb] in Hl, Hl', Hr |- *;
      lia.
Qed.

(** The states a run reaches after the preparation are well keyed. *)
Lemma reachable_well_keyed bank clock k init n s :
  truthy (should_follow_up init) = false ->
  run bank (3 + k) clock n_parse_job_description init = Ok (n, s) ->
  well_keyed n s.
Proof.
  intros Hf H. rewrite run_after_prepare in H.
  destruct (run_well_keyed bank k (fun i => clock (3 + i)%nat) _ _
              (prepare_well_keyed init Hf)) as (n' & s' & E & Hwk).
  rewrite E in H. injection H as <- <-. exact Hwk.
Qed.

(** X7. [generate_final_report] ends the run: from a well-keyed state at
    that node the graph is at [END] after six steps, and stays there.  On
    the way [final_report] remains the report built from the state the node
    was entered with, [asked_questions] and [question_counter] do not
    change, and at most one answer, the salary answer, is appended. *)
Theorem report_ends_the_run bank clock k s :
  well_keyed n_generate_final_report s ->
  exists s',
    run bank (6 + k) clock n_generate_final_report s = Ok (END, s')
    /\ final_report s' = Some (build_report s)
    /\ truthy (interview_complete s') = true
    /\ asked_questions s' = asked_questions s
    /\ question_counter s' = question_counter s
    /\ (List.length (get (answers s') [])
        <= S (List.length (get (answers s) [])))%nat.
Proof.
  intros Hwk.
  destruct (step_generate_final_report bank (clock O) s Hwk)
    as (n1 & s1 & E & Hwk1).
  destruct (step_inv _ _ _ _ _ _ E) as (u & Hu & -> & Hsucc).
  cbn [node_update] in Hu. injection Hu as <-.
  assert (Hc : truthy (interview_complete
                         (apply_update (generate_final_report s) s)) = true)
    by reflexivity.
  cbn [successor] in Hsucc.
  rewrite (report_edges_complete _ Hc), (controller_complete _ Hc) in Hsucc.
  injection Hsucc as Hn1.
  assert (Hcl : closing n1 (apply_update (generate_final_report s) s)).
  { split; [exact Hwk1|]. split; [exact Hc|].
    rewrite <- Hn1. now destruct (negb _). }
  assert (Hr : (tail_rank n1 <= 5 + k)%nat).
  { rewrite <- Hn1. destruct (negb _); cbn [tail_rank]; lia. }
  destruct (closing_run bank (5 + k) (fun i => clock (S i)) n1 _ Hcl Hr)
    as (s' & E' & Hc' & Hf & Ha & Hq & Hl).
  exists s'. replace (6 + k)%nat with (S (5 + k)) by lia.
  rewrite run_S, E. cbn [bind fst snd].
  split; [exact E'|]. rewrite Hf, Ha, Hq. split; [reflexivity|].
  split; [exact Hc'|]. split; [reflexivity|]. split; [reflexivity|].
  revert Hl. unfold generate_final_report. all_keys.
  destruct (Nat.leb 3 (tail_rank n1)); lia.
Qed.

Lemma report_ends_the_run_witness :
  exists s',
    run demo_bank 6 (fun i => minute_clock (48 + i)) n_generate_final_report
        (session_state 48) = Ok (END, s')
    /\ final_report s' = Some (build_report (session_state 48))
    /\ truthy (interview_complete s') = true
    /\ asked_questions s' = asked_questions (session_state 48)
    /\ question_counter s' = question_counter (session_state 48)
    /\ (List.length (get (answers s') [])
        <= S (List.length (get (answers (session_state 48)) [])))%nat.
Proof.
  apply (report_ends_the_run demo_bank (fun i => minute_clock (48 + i)) 0
           (session_state 48)).
  apply (reachable_well_keyed demo_bank minute_clock 45 (main_init 5)
           n_generate_final_report (session_state 48));
    vm_compute; reflexivity.
Defined.

(** What the three nodes of the follow-up cycle leave alone. *)
Lemma cycle_node_keeps bank n now s u :
  n = n_generate_follow_up_question \/ n = n_evaluate_answer
  \/ n = n_update_progress ->
  node_update bank n now s = Ok u ->
  truthy (interview_complete (apply_update u s))
  = truthy (interview_complete s)
  /\ get (required_skills (apply_update u s)) [] = get (required_skills s) []
  /\ (messages s <> None ->
      last_human_content (get (messages (apply_update u s)) [])
      = last_human_content (get (messages s) [])).
Proof.
  intros Hn H.
  destruct Hn as [->|[->| ->]]; node_inv H; all_keys; read_keys_everywhere;
    cbn [get]; rewrite ?last_human_content_snoc_ai;
    repeat split; try reflexivity; try congruence.
Qed.

Lemma follow_up_pending_cycle bank clock s :
  follow_up_pending s ->
  exists s',
    run bank 3 clock n_generate_follow_up_question s
    = Ok (n_generate_follow_up_question, s')
    /\ follow_up_pending s'
    /\ get (question_counter s') 0 = get (question_counter s) 0 + 1.
Proof.
  intros (Hwk & Hf & Hc & Hw).
  (* generate_follow_up_question *)
  destruct (step_generate_follow_up bank (clock O) s Hwk) as (s1 & E1 & Hwk1).
  destruct (step_inv _ _ _ _ _ _ E1) as (u1 & Hu1 & Hs1 & _).
  destruct (cycle_node_keeps bank _ _ _ _ (or_introl eq_refl) Hu1)
    as (Hc1 & Hk1 & Hm1).
  rewrite <- Hs1 in Hc1, Hk1, Hm1.
  assert (Hq : messages s <> None)
    by (destruct Hwk as (_ & _ & _ & Hp & _); apply (Hp Hf)).
  specialize (Hm1 Hq).
  assert (H1 : truthy (awaiting_answer s1) = true
               /\ get (question_counter s1) 0 = get (question_counter s) 0 + 1
               /\ messages s1 <> None).
  { subst s1. clear E1 Hwk1 Hc1 Hk1 Hm1. node_inv Hu1; all_keys;
      read_keys_everywhere; cbn [get];
      try (rewrite Hf in *; discriminate);
      repeat split; try reflexivity; try discriminate. }
  destruct H1 as (Ha1 & Hn1 & Hq1).
  (* evaluate_answer *)
  destruct (step_evaluate_answer bank (clock 1%nat) s1 Hwk1) as (s2 & E2 & Hwk2).
  destruct (step_inv _ _ _ _ _ _ E2) as (u2 & Hu2 & Hs2 & _).
  destruct (cycle_node_keeps bank _ _ _ _ (or_intror (or_introl eq_refl)) Hu2)
    as (Hc2 & Hk2 & Hm2).
  rewrite <- Hs2 in Hc2, Hk2, Hm2. specialize (Hm2 Hq1).
  assert (H2 : truthy (should_follow_up s2) = true
               /\ question_counter s2 = question_counter s1
               /\ messages s2 <> None).
  { destruct Hwk1 as (_ & _ & Hp & _). destruct (Hp Ha1) as (_ & Hp1).
    destruct (question_posed_items s1 Hp1) as (q & msgs & start & Hq' & Hm' & Hs').
    rewrite <- Hk1, <- Hm1, Hm' in Hw. cbn [get] in Hw.
    subst s2. clear E2 Hwk2 Hc2 Hk2 Hm2.
    node_inv Hu2; all_keys; read_keys_everywhere; same_key; cbn [get] in *;
      try (rewrite Ha1 in *; discriminate);
      try (rewrite Hw in *; discriminate);
      repeat split; try reflexivity; try discriminate; try assumption. }
  destruct H2 as (Hf2 & Hn2 & Hq2).
  (* update_progress *)
  destruct (step_update_progress bank (clock 2%nat) s2 Hwk2)
    as (n3 & s3 & E3 & Hwk3).
  destruct (step_inv _ _ _ _ _ _ E3) as (u3 & Hu3 & Hs3 & Hsucc).
  destruct (cycle_node_keeps bank _ _ _ _ (or_intror (or_intror eq_refl)) Hu3)
    as (Hc3 & Hk3 & Hm3).
  rewrite <- Hs3 in Hc3, Hk3, Hm3. specialize (Hm3 Hq2).
  assert (H3 : truthy (should_follow_up s3) = true
               /\ question_counter s3 = question_counter s2).
  { subst s3. clear E3 Hwk3 Hc3 Hk3 Hm3 Hsucc.
    node_inv Hu3; all_keys; split; first [exact Hf2|reflexivity]. }
  destruct H3 as (Hf3 & Hn3).
  assert (En3 : n3 = n_generate_follow_up_question).
  { cbn [successor] in Hsucc. rewrite controller_edges_total in Hsucc.
    injection Hsucc as <-. unfold controller.
    rewrite Hc3, Hc2, Hc1, Hc. unfold truthy in Hf3. now rewrite Hf3. }
  subst n3. exists s3.
  split.
  { rewrite run_S, E1. cbn [bind fst snd]. rewrite run_S. cbv beta.
    rewrite E2. cbn [bind fst snd]. rewrite run_S. cbv beta.
    rewrite E3. reflexivity. }
  split.
  { split; [exact Hwk3|]. split; [exact Hf3|].
    split; [now rewrite Hc3, Hc2, Hc1|].
    now rewrite Hk3, Hk2, Hk1, Hm3, Hm2, Hm1. }
  now rewrite Hn3, Hn2, Hn1.
Qed.

(** X8. Follow-ups are bounded neither by [max_questions] nor by the time
    budget: [controller] tests [should_follow_up] before either.  While a
    follow-up is due and the last human message scores in [2.8, 4.2), every
    three steps lead back to [generate_follow_up_question], with
    [question_counter] one higher each time. *)
Theorem follow_ups_ignore_the_limits bank clock j s :
  follow_up_pending s ->
  exists s',
    run bank (3 * j) clock n_generate_follow_up_question s
    = Ok (n_generate_follow_up_question, s')
    /\ follow_up_pending s'
    /\ get (question_counter s') 0
       = get (question_counter s) 0 + Z.of_nat j.
Proof.
  revert clock s. induction j as [|j IH]; intros clock s Hs.
  - exists s. split; [reflexivity|]. split; [exact Hs|]. cbn. lia.
  - destruct (follow_up_pending_cycle bank clock s Hs) as (s1 & E1 & Hs1 & Hn1).
    destruct (IH (fun i => clock (3 + i)%nat) s1 Hs1) as (s' & E' & Hs' & Hn').
    exists s'. replace (3 * S j)%nat with (3 + 3 * j)%nat by lia.
    rewrite run_add, E1. cbn [bind fst snd].
    split; [exact E'|]. split; [exact Hs'|]. lia.
Qed.

Lemma follow_ups_ignore_the_limits_witness :
  exists s',
    run demo_bank 30 (fun i => minute_clock (6 + i))
        n_generate_follow_up_question eager_state
    = Ok (n_generate_follow_up_question, s')
    /\ follow_up_pending s'
    /\ get (question_counter s') 0
       = get (question_counter eager_state) 0 + 10.
Proof.
  apply (follow_ups_ignore_the_limits demo_bank
           (fun i => minute_clock (6 + i)) 10 eager_state).
  split; [|vm_compute; repeat split; reflexivity].
  apply (reachable_well_keyed demo_bank minute_clock 3 eager_init
           n_generate_follow_up_question eager_state);
    vm_compute; reflexivity.
Defined.

(** ** The rubric over all answers *)

Lemma rubric_table_monotone : monotone_on rubric_table = true.
Proof. vm_compute. reflexivity. Qed.

Lemma monotone_on_map (f : Z * bool * Z -> F64.float) cases a b :
  monotone_on (map (fun c => (c, f c)) cases) = true ->
  In a cases -> In b cases -> case_le a b = true ->
  F64.leb (f a) (f b) = true.
Proof.
  intros H Ha Hb Hle. unfold monotone_on in H.
  rewrite forallb_forall in H.
  specialize (H (a, f a) (in_map (fun c => (c, f c)) cases a Ha)).
  rewrite forallb_forall in H.
  specialize (H (b, f b) (in_map (fun c => (c, f c)) cases b Hb)).
  cbn [fst snd] in H. now rewrite Hle in H.
Qed.

Lemma score_case_monotone_80 k r wc k' r' wc' :
  0 <= k <= k' -> k' <= 4 -> implb r r' = true -> 0 <= wc <= wc' -> wc' <= 80 ->
  F64.leb (score_case k r wc) (score_case k' r' wc') = true.
Proof.
  intros Hk Hk' Hr Hwc Hwc'.
  apply (monotone_on_map
           (fun c => score_case (fst (fst c)) (snd (fst c)) (snd c))
           rubric_cases (k, r, wc) (k', r', wc') rubric_table_monotone).
  - apply In_rubric_cases; lia.
  - apply In_rubric_cases; lia.
  - unfold case_le. cbn [fst snd]. rewrite Hr.
    rewrite !andb_true_iff, !Z.leb_le. lia.
Qed.

Lemma score_case_min k r wc : 0 <= wc ->
  score_case k r wc = score_case k r (Z.min wc 80).
Proof.
  intros H. destruct (Z.le_gt_cases 80 wc).
  - rewrite Z.min_r by lia. now apply score_case_saturates.
  - now rewrite Z.min_l by lia.
Qed.

Lemma score_case_monotone k r wc k' r' wc' :
  0 <= k <= k' -> k' <= 4 -> implb r r' = true -> 0 <= wc <= wc' ->
  F64.leb (score_case k r wc) (score_case k' r' wc') = true.
Proof.
  intros Hk Hk' Hr Hwc.
  rewrite (score_case_min k r wc), (score_case_min k' r' wc') by lia.
  apply score_case_monotone_80; try assumption; lia.
Qed.

(** X9. The rubric is monotone, rounding included: an answer that matches
    at least as many STAR sets, names a required skill if the other does,
    and has at least as many words, scores at least as much. *)
Theorem score_is_monotone skills a b :
  star_sum (star_of (PyStr.lower a)) <= star_sum (star_of (PyStr.lower b)) ->
  (names_skill skills a = true -> names_skill skills b = true) ->
  PyStr.word_count a <= PyStr.word_count b ->
  F64.leb (score_of skills a) (score_of skills b) = true.
Proof.
  intros Hk Hr Hwc. rewrite !score_of_case. fold (names_skill skills a).
  fold (names_skill skills b).
  apply score_case_monotone.
  - split; [apply star_sum_range|exact Hk].
  - apply star_sum_range.
  - destruct (names_skill skills a); [now rewrite Hr|reflexivity].
  - split; [apply count_words_nonneg|exact Hwc].
Qed.

Lemma score_is_monotone_witness :
  F64.leb (score_of parsed_skills mid_answer)
          (score_of parsed_skills star_answer) = true.
Proof.
  apply (score_is_monotone parsed_skills mid_answer star_answer);
    vm_compute; intros; first [reflexivity|discriminate].
Defined.

Lemma score_case_floor : score_case 0 false 0 = F64.lit 0.75.
Proof. vm_compute. reflexivity. Qed.

Lemma score_case_ceiling : score_case 4 true 80 = F64.lit 5.0.
Proof. vm_compute. reflexivity. Qed.

(** X10. Every score lies between 0.75 and 5.0; 0.75 is the score of the
    empty answer when no skill is required, and 5.0 is scored. *)
Theorem score_between_floor_and_ceiling skills ans :
  F64.leb (F64.lit 0.75) (score_of skills ans) = true
  /\ F64.leb (score_of skills ans) (F64.lit 5.0) = true
  /\ score_of [] "" = F64.lit 0.75
  /\ exists best, score_of parsed_skills best = F64.lit 5.0.
Proof.
  split; [|split; [|split]].
  - rewrite <- score_case_floor, score_of_case.
    apply score_case_monotone.
    + split; [lia|apply star_sum_range].
    + apply star_sum_range.
    + reflexivity.
    + split; [lia|apply count_words_nonneg].
  - rewrite <- score_case_ceiling, score_of_case.
    rewrite (score_case_min _ _ (PyStr.word_count ans))
      by apply count_words_nonneg.
    apply score_case_monotone_80.
    + split; [apply star_sum_range|apply star_sum_range].
    + lia.
    + now destruct (existsb _ skills).
    + split; [|lia]. apply Z.min_glb; [apply count_words_nonneg|lia].
    + lia.
  - vm_compute. reflexivity.
  - exists full_answer. vm_compute. reflexivity.
Qed.

Lemma lower_char_idem c : PyStr.lower_char (PyStr.lower_char c) = PyStr.lower_char c.
Proof. destruct c as [[] [] [] [] [] [] [] []]; vm_compute; reflexivity. Qed.

Lemma is_space_lower_char c : PyStr.is_space (PyStr.lower_char c) = PyStr.is_space c.
Proof. destruct c as [[] [] [] [] [] [] [] []]; vm_compute; reflexivity. Qed.

Lemma lower_idem s : PyStr.lower (PyStr.lower s) = PyStr.lower s.
Proof.
  induction s as [|c s IH]; [reflexivity|].
  cbn [PyStr.lower]. now rewrite lower_char_idem, IH.
Qed.

Lemma count_words_lower s : forall b,
  PyStr.count_words b (PyStr.lower s) = PyStr.count_words b s.
Proof.
  induction s as [|c s IH]; intros b; [reflexivity|].
  cbn [PyStr.lower PyStr.count_words]. rewrite is_space_lower_char.
  now rewrite !IH.
Qed.

Lemma word_count_lower s : PyStr.word_count (PyStr.lower s) = PyStr.word_count s.
Proof. apply count_words_lower. Qed.

Lemma names_skill_lower skills skills' a b :
  map PyStr.lower skills = map PyStr.lower skills' ->
  PyStr.lower a = PyStr.lower b ->
  names_skill skills a = names_skill skills' b.
Proof.
  intros Hs Hl. unfold names_skill. rewrite Hl. clear Hl.
  revert skills' Hs. induction skills as [|x xs IH]; intros [|y ys] Hs;
    try discriminate Hs; [reflexivity|].
  cbn [map] in Hs. injection Hs as Hx Hxs.
  cbn [existsb]. now rewrite Hx, (IH ys Hxs).
Qed.

(** X11. The score does not depend on letter case: two answers with the
    same lower-casing, against lists of skills with the same lower-casing,
    score the same. *)
Theorem score_ignores_letter_case skills skills' a b :
  map PyStr.lower skills = map PyStr.lower skills' ->
  PyStr.lower a = PyStr.lower b ->
  score_of skills a = score_of skills' b.
Proof.
  intros Hs Hl. rewrite !score_of_case.
  fold (names_skill skills a). fold (names_skill skills' b).
  rewrite (names_skill_lower skills skills' a b Hs Hl), Hl.
  now rewrite <- (word_count_lower a), Hl, word_count_lower.
Qed.

Lemma score_ignores_letter_case_witness :
  score_of ["PYTHON"] "I Built a python Service"
  = score_of ["python"] "i built a Python service".
Proof.
  apply (score_ignores_letter_case ["PYTHON"] ["python"]
           "I Built a python Service" "i built a Python service");
    reflexivity.
Defined.

(** ** The seniority and the transcript *)

(** ** Substrings *)

Lemma starts_with_spec p : forall s,
  PyStr.starts_with p s = true <-> exists b, s = (p ++ b)%string.
Proof.
  induction p as [|a p IH]; intros s.
  - cbn. split; [intros _; now exists s|reflexivity].
  - destruct s as [|c s]; cbn [PyStr.starts_with].
    + split; [discriminate|intros (b & H); discriminate H].
    + rewrite andb_true_iff, Ascii.eqb_eq, IH. split.
      * intros (-> & b & ->). now exists b.
      * intros (b & H). cbn in H. injection H as -> ->. eauto.
Qed.

Lemma contains_spec needle : forall hay,
  PyStr.contains needle hay = true <-> occurs needle hay.
Proof.
  unfold occurs. induction hay as [|c hay IH].
  - cbn [PyStr.contains]. rewrite orb_false_r, starts_with_spec. split.
    + intros (b & ->). now exists "", b.
    + intros (a & b & H). destruct a as [|x a]; [|discriminate H].
      cbn in H. eauto.
  - cbn [PyStr.contains]. rewrite orb_true_iff, starts_with_spec, IH. split.
    + intros [(b & ->)|(a & b & ->)].
      * now exists "", b.
      * now exists (String c a), b.
    + intros (a & b & H). destruct a as [|x a].
      * left. cbn in H. eauto.
      * right. cbn in H. injection H as -> ->. eauto.
Qed.

(** X12. The seniority [parse_job_description] reports is Senior exactly
    when [senior] or [lead] occurs in the lower-cased description
    (anywhere, inside a longer word too), Junior exactly when neither does
    and [junior] or [entry] occurs, and Mid-level otherwise. *)
Theorem seniority_by_substring jd :
  let senior := occurs "senior" (PyStr.lower jd)
                \/ occurs "lead" (PyStr.lower jd) in
  let junior := occurs "junior" (PyStr.lower jd)
                \/ occurs "entry" (PyStr.lower jd) in
  (seniority_of jd = "Senior" <-> senior)
  /\ (seniority_of jd = "Junior" <-> ~ senior /\ junior)
  /\ (seniority_of jd = "Mid-level" <-> ~ senior /\ ~ junior).
Proof.
  cbv zeta. rewrite <- !contains_spec. unfold seniority_of.
  destruct (PyStr.contains "senior" (PyStr.lower jd)),
    (PyStr.contains "lead" (PyStr.lower jd)),
    (PyStr.contains "junior" (PyStr.lower jd)),
    (PyStr.contains "entry" (PyStr.lower jd)); cbn [orb];
    repeat split; try discriminate; intuition (auto; discriminate).
Qed.

(** ** The transcript *)

Lemma dict_get_set {V} (d : list (string * V)) k v k' :
  dict_get (dict_set d k v) k'
  = if String.eqb k k' then Some v else dict_get d k'.
Proof.
  induction d as [|[k0 v0] d IH]; cbn [dict_set dict_get].
  - reflexivity.
  - destruct (String.eqb_spec k0 k) as [->|Hk]; cbn [dict_get].
    + destruct (String.eqb k k'); reflexivity.
    + rewrite IH. destruct (String.eqb_spec k0 k') as [->|Hk'];
        [|reflexivity].
      destruct (String.eqb_spec k k') as [->|_]; [contradiction|reflexivity].
Qed.

Lemma find_app_first {A} (f : A -> bool) l1 l2 :
  find f (l1 ++ l2)
  = match find f l1 with Some x => Some x | None => find f l2 end.
Proof.
  induction l1 as [|x l1 IH]; [reflexivity|].
  cbn [app find]. destruct (f x); [reflexivity|exact IH].
Qed.

Lemma dict_get_fold answers : forall (d : list (string * AnswerRecord)) id,
  dict_get (fold_left (fun d a => dict_set d (question_id a) a) answers d) id
  = match last_answer_to id answers with
    | Some a => Some a
    | None => dict_get d id
    end.
Proof.
  unfold last_answer_to.
  induction answers as [|a answers IH]; intros d id; [reflexivity|].
  cbn [fold_left rev]. rewrite IH, find_app_first, dict_get_set. cbn [find].
  destruct (find _ (rev answers)); [reflexivity|].
  destruct (String.eqb (question_id a) id); reflexivity.
Qed.

Lemma answers_by_id_get answers id :
  dict_get (answers_by_id answers) id = last_answer_to id answers.
Proof.
  unfold answers_by_id. rewrite dict_get_fold.
  now destruct (last_answer_to id answers).
Qed.

Lemma enumerate_from_map {A} (l : list A) : forall i,
  map snd (enumerate_from i l) = l.
Proof.
  induction l as [|x l IH]; intros i; [reflexivity|].
  cbn [enumerate_from map snd]. now rewrite IH.
Qed.

Lemma enumerate_from_numbers {A} (l : list A) : forall i,
  map fst (enumerate_from i l)
  = map (fun n => i + Z.of_nat n) (seq 0 (List.length l)).
Proof.
  induction l as [|x l IH]; intros i; [reflexivity|].
  cbn [enumerate_from map fst List.length seq]. rewrite IH, <- seq_shift, map_map.
  f_equal; [lia|]. apply map_ext. intros n. lia.
Qed.

Lemma transcript_rows_answers (final_state : InterviewState) :
  map row_answer (transcript_rows final_state)
  = map (fun q => last_answer_to (q_id q) (get (answers final_state) []))
        (get (asked_questions final_state) []).
Proof.
  unfold transcript_rows. rewrite map_map. cbn [row_answer].
  rewrite <- (enumerate_from_map (get (asked_questions final_state) []) 0) at 2.
  rewrite map_map. apply map_ext. intros iq. apply answers_by_id_get.
Qed.

(** X13. Section 4 of [print_transcript] prints one block per entry of
    [asked_questions], in order and numbered from 1, and under each
    question the last record of [answers] with its id, or
    [No answer recorded.] when there is none. *)
Theorem transcript_pairs_last_answer (final_state : InterviewState) :
  let questions := get (asked_questions final_state) [] in
  let recorded := get (answers final_state) [] in
  map row_question (transcript_rows final_state) = map q_text questions
  /\ map row_number (transcript_rows final_state)
     = map (fun n => Z.of_nat n + 1) (seq 0 (List.length questions))
  /\ map row_answer (transcript_rows final_state)
     = map (fun q => last_answer_to (q_id q) recorded) questions.
Proof.
  cbv zeta. split; [|split; [|apply transcript_rows_answers]];
    unfold transcript_rows; rewrite !map_map; cbn [row_question row_number].
  - rewrite <- (enumerate_from_map (get (asked_questions final_state) []) 0) at 2.
    now rewrite map_map.
  - rewrite <- (map_map fst (fun i => i + 1)), enumerate_from_numbers, map_map.
    reflexivity.
Qed.

(** X14. An answer appears in the transcript exactly when its question id
    is the id of an asked question and no later answer carries the same
    id: an earlier answer to the same id, and an answer to a question that
    was never listed, are not printed. *)
Theorem transcript_shows_last_answers_only (final_state : InterviewState)
    (a : AnswerRecord) :
  In (Some a) (map row_answer (transcript_rows final_state))
  <-> In (question_id a) (asked_ids final_state)
      /\ last_answer_to (question_id a) (get (answers final_state) []) = Some a.
Proof.
  rewrite transcript_rows_answers. unfold asked_ids. rewrite !in_map_iff. split.
  - intros (q & Hq & Hin).
    assert (E : question_id a = q_id q).
    { unfold last_answer_to in Hq. apply find_some in Hq.
      now apply String.eqb_eq. }
    split; [exists q; auto|now rewrite E].
  - intros ((q & Hq & Hin) & Hl). exists q. now rewrite Hq.
Qed.

(** ** The report against exact arithmetic *)

Module ExactFacts.

Import QArith Qabs.






End ExactFacts.
















